(** * Service_UI: the control window of the eye-tracking service

    Shallow embedding of [pupil_src/shared_modules/service_ui.py].

    The plugin is glue between a window system (GLFW), a widget system
    (pyglui) and the host's notification bus.  Its methods are embedded as
    computations over an explicit [world] (the window-system state, the
    [g_pool] attributes and the plugin's own attributes) that also record,
    in order, every call the plugin makes into its collaborators
    ([event]s) and may end in a Python exception.

    Python floats are IEEE binary64 numbers: they are modelled by Rocq's
    primitive floats, Python ints by [Z], dicts by [gmap string pyval]. *)

From Stdlib Require Import ZArith Floats Ascii String DecimalString.
From Stdlib Require Import DecimalPos DecimalZ.
From stdpp Require Import gmap strings list.
Set Warnings "-inexact-float".

Open Scope Z_scope.

(** ** Python values *)

Inductive pyval :=
| VNone
| VBool (b : bool)
| VInt (z : Z)
| VFloat (x : float)
| VStr (s : string)
| VPair (a b : pyval).

(** A notification, and the session dictionary, are flat Python dicts. *)
Abbreviation pydict := (gmap string pyval).

Inductive exn :=
| AttributeError
| KeyError (key : string)
| ZeroDivisionError
| ValueError
| OverflowError
| UnicodeDecodeError
| UnicodeEncodeError.

Inductive outcome (A : Type) :=
| Ok (a : A)
| Raise (e : exn).
Arguments Ok {A} a.
Arguments Raise {A} e.

(** ** Numbers *)

(** A Python number as the code handles it: [f_width] starts as an [int]
    and becomes a [float] once it is multiplied or divided by a scale. *)
Inductive pynum :=
| PInt (z : Z)
| PFloat (x : float).

(** [float(z)]: the nearest binary64 number (ties to even). *)
Definition float_of_Z (z : Z) : float :=
  SF2Prim (binary_normalize prec emax z 0 false).

Definition is_infinite (x : float) : bool :=
  match Prim2SF x with
  | S754_infinity _ => true
  | _ => false
  end.

(** The implicit conversion of an operand of [*] or [/] to float; an int
    beyond the float range raises [OverflowError]. *)
Definition to_float (a : pynum) : outcome float :=
  match a with
  | PFloat x => Ok x
  | PInt z =>
      let x := float_of_Z z in
      if is_infinite x then Raise OverflowError else Ok x
  end.

(** [a * y] for a float [y]. *)
Definition py_mul (a : pynum) (y : float) : outcome float :=
  match to_float a with
  | Ok x => Ok (PrimFloat.mul x y)
  | Raise e => Raise e
  end.

(** [a / y] for a float [y]: a zero divisor (of either sign) raises. *)
Definition py_truediv (a : pynum) (y : float) : outcome float :=
  match to_float a with
  | Ok x =>
      if PrimFloat.eqb y 0%float then Raise ZeroDivisionError
      else Ok (PrimFloat.div x y)
  | Raise e => Raise e
  end.

(** [int(x)] of a float: truncation toward zero; [nan] and the infinities
    raise. *)
Definition float_trunc (x : float) : outcome Z :=
  match Prim2SF x with
  | S754_nan => Raise ValueError
  | S754_infinity _ => Raise OverflowError
  | S754_zero _ => Ok 0
  | S754_finite s m e =>
      let a := if 0 <=? e then Z.pos m * 2 ^ e else Z.pos m / 2 ^ (- e) in
      Ok (if s then - a else a)
  end.

Definition is_finite (x : float) : bool :=
  match Prim2SF x with
  | S754_zero _ | S754_finite _ _ _ => true
  | _ => false
  end.

Definition sign_bit (x : float) : bool :=
  match Prim2SF x with
  | S754_zero s | S754_infinity s | S754_finite s _ _ => s
  | S754_nan => false
  end.

(** The exact magnitude of a finite float, as a fraction [(num, den)]. *)
Definition magnitude (x : float) : option (Z * Z) :=
  match Prim2SF x with
  | S754_zero _ => Some (0, 1)
  | S754_finite _ m e => Some (Z.pos m * 2 ^ Z.max e 0, 2 ^ Z.max (- e) 0)
  | _ => None
  end.

(** The spec's words "rounded to integers", read as rounding to the nearest
    integer (ties away from zero). *)
Definition nearest_int (x : float) : option Z :=
  match magnitude x with
  | Some (num, den) =>
      let a := (2 * num + den) / (2 * den) in
      Some (if sign_bit x then - a else a)
  | None => None
  end.

(** [int(a)]. *)
Definition py_int (a : pynum) : outcome Z :=
  match a with
  | PInt z => Ok z
  | PFloat x => float_trunc x
  end.

(** ["{}".format(n)] for an int. *)
Definition format_int (n : Z) : string :=
  NilZero.string_of_int (Z.to_int n).

(** ** Strings and bytes

    A Python [str] is represented by the bytes of its UTF-8 encoding, a
    lone surrogate in it by its three-byte form (ED A0..BF 80..BF), which
    is not well-formed UTF-8.  So [bytes.decode()] checks well-formedness
    and yields well-formed text only, and [str.encode()] raises on a text
    that is not well-formed, which is a [str] holding a lone surrogate. *)

Definition byte_in (lo hi : N) (c : ascii) : bool :=
  let n := N_of_ascii c in ((lo <=? n) && (n <=? hi))%N.

Definition cont (c : ascii) : bool := byte_in 128 191 c.

Fixpoint utf8_valid (b : string) : bool :=
  match b with
  | EmptyString => true
  | String c0 r0 =>
      if byte_in 0 127 c0 then utf8_valid r0
      else
        match r0 with
        | EmptyString => false
        | String c1 r1 =>
            if byte_in 194 223 c0 then cont c1 && utf8_valid r1
            else
              match r1 with
              | EmptyString => false
              | String c2 r2 =>
                  if byte_in 224 239 c0 then
                    (if byte_in 224 224 c0 then byte_in 160 191 c1
                     else if byte_in 237 237 c0 then byte_in 128 159 c1
                     else cont c1)
                    && cont c2 && utf8_valid r2
                  else
                    match r2 with
                    | EmptyString => false
                    | String c3 r3 =>
                        byte_in 240 244 c0
                        && (if byte_in 240 240 c0 then byte_in 144 191 c1
                            else if byte_in 244 244 c0 then byte_in 128 143 c1
                            else cont c1)
                        && cont c2 && cont c3 && utf8_valid r3
                    end
              end
        end
  end.

(** [b.decode()] where [b] is what [glfwGetClipboardString] returned:
    [None] has no attribute [decode]. *)
Definition decode (b : option string) : outcome string :=
  match b with
  | None => Raise AttributeError
  | Some s => if utf8_valid s then Ok s else Raise UnicodeDecodeError
  end.

(** [s.encode()]: a [str] holding a lone surrogate cannot be encoded. *)
Definition encode (s : string) : outcome string :=
  if utf8_valid s then Ok s else Raise UnicodeEncodeError.

(** Truthiness of [user_input.clipboard]. *)
Definition truthy (s : option string) : bool :=
  match s with
  | None | Some EmptyString => false
  | Some _ => true
  end.

(** [v == s] for a string literal [s]. *)
Definition eq_str (v : pyval) (s : string) : bool :=
  match v with
  | VStr t => String.eqb t s
  | _ => false
  end.

(** ** The world *)

Record world := World {
  (* the GLFW window [g_pool.main_window] *)
  window_should_close : bool;
  glfw_window_size : Z * Z;
  glfw_window_pos : Z * Z;
  glfw_content_scale : float;
  glfw_framebuffer_scale : float;
  glfw_clipboard : option string;
  (* g_pool *)
  gui_user_scale : float;
  gui_scale : float;
  gui_configuration : pyval;
  (* self *)
  window_size : Z * Z;
  content_scale : float;
}.

Definition with_should_close (b : bool) (w : world) : world :=
  World b (glfw_window_size w) (glfw_window_pos w) (glfw_content_scale w)
    (glfw_framebuffer_scale w) (glfw_clipboard w) (gui_user_scale w)
    (gui_scale w) (gui_configuration w) (window_size w) (content_scale w).

Definition with_clipboard (c : option string) (w : world) : world :=
  World (window_should_close w) (glfw_window_size w) (glfw_window_pos w)
    (glfw_content_scale w) (glfw_framebuffer_scale w) c (gui_user_scale w)
    (gui_scale w) (gui_configuration w) (window_size w) (content_scale w).

Definition with_gui_user_scale (x : float) (w : world) : world :=
  World (window_should_close w) (glfw_window_size w) (glfw_window_pos w)
    (glfw_content_scale w) (glfw_framebuffer_scale w) (glfw_clipboard w) x
    (gui_scale w) (gui_configuration w) (window_size w) (content_scale w).

Definition with_gui_scale (x : float) (w : world) : world :=
  World (window_should_close w) (glfw_window_size w) (glfw_window_pos w)
    (glfw_content_scale w) (glfw_framebuffer_scale w) (glfw_clipboard w)
    (gui_user_scale w) x (gui_configuration w) (window_size w)
    (content_scale w).

Definition with_window_size (s : Z * Z) (w : world) : world :=
  World (window_should_close w) (glfw_window_size w) (glfw_window_pos w)
    (glfw_content_scale w) (glfw_framebuffer_scale w) (glfw_clipboard w)
    (gui_user_scale w) (gui_scale w) (gui_configuration w) s
    (content_scale w).

Definition with_content_scale (x : float) (w : world) : world :=
  World (window_should_close w) (glfw_window_size w) (glfw_window_pos w)
    (glfw_content_scale w) (glfw_framebuffer_scale w) (glfw_clipboard w)
    (gui_user_scale w) (gui_scale w) (gui_configuration w) (window_size w) x.

(** ** Calls into the collaborators, in the order they are made *)

Inductive event :=
| NotifyAll (n : pydict)
| LoggerWarning (msg : string)
| GlfwSetWindowShouldClose (flag : bool)
| GlfwSetWindowSize (w h : Z)
| GlfwPollEvents
| GlfwSetClipboardString (b : string)
| GlfwSwapBuffers
| GlViewport (x y w h : Z)
| MakeCoordSystemNormBased
| DrawGlTexture
| MakeCoordSystemPixelBased (h w d : Z)
| GuiSetScale (x : float)
| GuiUpdateWindow (w h : Z)
| GuiCollectMenus
| GuiUpdateClipboard (s : string)
| GuiUpdate
| GuiUpdateKey (key scancode action mods : Z)
| GuiUpdateChar (c : Z)
| GuiUpdateButton (button action mods : Z)
| GuiUpdateMouse (x y : float)
| GuiUpdateScroll (x y : float).

(** What the host does behind the plugin's back.  [glfwPollEvents] lets
    the window system change anything it owns (and dispatch callbacks);
    [g_pool.gui.update()] lets the widget system do the same and returns
    [user_input.clipboard].  Both are arbitrary functions of the world: the
    trace of a method lists the calls of that activation, and what a
    callback dispatched from inside one of them does shows in the world it
    leaves.  [glfw.get_content_scale] and [glfw.get_framebuffer_scale] are
    read from the world; [glfwSetWindowSize] is a request to the window
    system and is recorded as such. *)
Record host := Host {
  platform_system : string;
  poll_events : world → world;
  gui_update : world → world * option string;
  window_coordinate_to_framebuffer_coordinate :
    world → float * float → float * float;
}.

(** ** The monad: state, trace of calls, exceptions *)

Definition M (A : Type) : Type := world → outcome A * world * list event.

Definition ret {A} (a : A) : M A := λ w, (Ok a, w, []).

Definition bind {A B} (m : M A) (k : A → M B) : M B :=
  λ w,
    match m w with
    | (Ok a, w1, t1) =>
        let '(r, w2, t2) := k a w1 in (r, w2, t1 ++ t2)
    | (Raise e, w1, t1) => (Raise e, w1, t1)
    end.

Definition gets {A} (f : world → A) : M A := λ w, (Ok (f w), w, []).
Definition modify (f : world → world) : M unit := λ w, (Ok tt, f w, []).
Definition emit (e : event) : M unit := λ w, (Ok tt, w, [e]).
Definition lift {A} (r : outcome A) : M A := λ w, (r, w, []).

(** [try: m except AttributeError: h] *)
Definition try_except_AttributeError {A} (m h : M A) : M A :=
  λ w,
    match m w with
    | (Raise AttributeError, w1, t1) =>
        let '(r, w2, t2) := h w1 in (r, w2, t1 ++ t2)
    | res => res
    end.

Declare Scope py_scope.
Delimit Scope py_scope with py.
Notation "'do' x <- m ; k" := (bind m (λ x, k))
  (at level 10, x name, m at level 100, k at level 200,
   format "'[v' 'do'  x  <-  m ; '/' k ']'") : py_scope.
Notation "'do' ' p <- m ; k" := (bind m (λ x, match x with p => k end))
  (at level 10, p pattern, m at level 100, k at level 200,
   format "'[v' 'do'  ' p  <-  m ; '/' k ']'") : py_scope.
Notation "m ;; k" := (bind m (λ _, k))
  (at level 100, k at level 200, right associativity) : py_scope.

(** [d[key]] *)
Definition getitem (d : pydict) (key : string) : M pyval :=
  match d !! key with
  | Some v => ret v
  | None => lift (Raise (KeyError key))
  end.

(** ** Module-level constants *)

Definition window_size_default : Z * Z := (400, 400).

Definition stop_notification : pydict :=
  {[ "subject" := VStr "service_process.should_stop" ]}.

Definition clear_settings_notification : pydict :=
  {[ "subject" := VStr "clear_settings_process.should_start" ]}.

Definition restart_notification : pydict :=
  <[ "delay" := VFloat 2.0 ]>
    {[ "subject" := VStr "service_process.should_start" ]}.

Section Service_UI.

Context (H : host).

(** [scroll_factor], chosen once from [platform.system()]. *)
Definition scroll_factor : float :=
  if String.eqb (platform_system H) "Linux" then 10.0%float
  else if String.eqb (platform_system H) "Windows" then 10.0%float
  else 1.0%float.

(** [platform.system() in ("Windows", "Linux")] *)
Definition rescales_window_size : bool :=
  String.eqb (platform_system H) "Windows"
  || String.eqb (platform_system H) "Linux".

(** *** Collaborator calls *)

Definition notify_all (n : pydict) : M unit := emit (NotifyAll n).

Definition glfwWindowShouldClose : M bool := gets window_should_close.

Definition glfwSetWindowShouldClose (flag : bool) : M unit :=
  (modify (with_should_close flag) ;;
   emit (GlfwSetWindowShouldClose flag))%py.

Definition glfwPollEvents : M unit :=
  (emit GlfwPollEvents ;; modify (poll_events H))%py.

Definition glfwGetClipboardString : M (option string) :=
  gets glfw_clipboard.

Definition glfwSetClipboardString (b : string) : M unit :=
  (modify (with_clipboard (Some b)) ;;
   emit (GlfwSetClipboardString b))%py.

Definition gui_update_call : M (option string) :=
  (emit GuiUpdate ;;
   do r <- gets (gui_update H) ;
   modify (λ _, r.1) ;;
   ret r.2)%py.

Definition gui_set_scale (x : float) : M unit :=
  (modify (with_gui_scale x) ;; emit (GuiSetScale x))%py.

(** *** Methods *)

Definition gl_display : M unit :=
  (emit MakeCoordSystemNormBased ;;
   emit DrawGlTexture ;;
   do '(w, h) <- gets window_size ;
   emit (MakeCoordSystemPixelBased h w 3))%py.

Definition update_ui : M unit :=
  (do closing <- glfwWindowShouldClose ;
   if negb closing then
     do '(w, h) <- gets window_size ;
     emit (GlViewport 0 0 w h) ;;
     glfwPollEvents ;;
     gl_display ;;
     do clipboard <-
       try_except_AttributeError
         (do b <- glfwGetClipboardString ; lift (decode b))
         (ret "") ;
     emit (GuiUpdateClipboard clipboard) ;;
     do user_clipboard <- gui_update_call ;
     (if truthy user_clipboard
         && negb (bool_decide (user_clipboard = Some clipboard))
      then
        do b <- lift (encode (default "" user_clipboard)) ;
        glfwSetClipboardString b
      else ret tt) ;;
     emit GlfwSwapBuffers
   else
     notify_all stop_notification)%py.

Definition on_resize (w h : Z) : M unit :=
  (modify (with_window_size (w, h)) ;;
   do c <- gets glfw_content_scale ;
   modify (with_content_scale c) ;;
   do u <- gets gui_user_scale ;
   do c' <- gets content_scale ;
   gui_set_scale (PrimFloat.mul u c') ;;
   emit (GuiUpdateWindow w h) ;;
   emit GuiCollectMenus ;;
   update_ui)%py.

Definition on_window_key (key scancode action mods : Z) : M unit :=
  emit (GuiUpdateKey key scancode action mods).

Definition on_window_char (char : Z) : M unit :=
  emit (GuiUpdateChar char).

Definition on_window_mouse_button (button action mods : Z) : M unit :=
  emit (GuiUpdateButton button action mods).

Definition on_pos (x y : float) : M unit :=
  (do '(x', y') <-
     gets (λ w, window_coordinate_to_framebuffer_coordinate H w (x, y)) ;
   emit (GuiUpdateMouse x' y'))%py.

Definition on_scroll (x y : float) : M unit :=
  emit (GuiUpdateScroll x (PrimFloat.mul y scroll_factor)).

Definition set_scale (new_scale : float) : M unit :=
  (do old_scale <- gets gui_user_scale ;
   modify (with_gui_user_scale new_scale) ;;
   if PrimFloat.eqb old_scale new_scale then ret tt
   else
     do '(w, h) <- gets window_size ;
     on_resize w h)%py.

Definition set_window_size : M unit :=
  (let '(f_width, f_height) := window_size_default in
   do content_scale <- gets glfw_content_scale ;
   do framebuffer_scale <- gets glfw_framebuffer_scale ;
   do display_scale_factor <-
     lift (py_truediv (PFloat content_scale) framebuffer_scale) ;
   do f_width <- lift (py_mul (PInt f_width) display_scale_factor) ;
   do f_height <- lift (py_mul (PInt f_height) display_scale_factor) ;
   do w <- lift (py_int (PFloat f_width)) ;
   do h <- lift (py_int (PFloat f_height)) ;
   emit (GlfwSetWindowSize w h))%py.

Definition reset_restart : M unit :=
  (emit (LoggerWarning "Resetting all settings and restarting Capture.") ;;
   glfwSetWindowShouldClose true ;;
   notify_all clear_settings_notification ;;
   notify_all restart_notification)%py.

(** The dict is mutated in place; the returned dict is the caller's
    notification after the call. *)
Definition on_notify (notification : pydict) : M pydict :=
  (do subject <- getitem notification "subject" ;
   if eq_str subject "service_process.ui.should_update" then
     do d <- getitem notification "initial_delay" ;
     let notification := <[ "delay" := d ]> notification in
     notify_all notification ;;
     update_ui ;;
     ret notification
   else ret notification)%py.

Definition get_init_dict : M pydict :=
  (do '(x, y) <- gets glfw_window_pos ;
   do gui_scale <- gets gui_user_scale ;
   do ui_config <- gets gui_configuration ;
   let sess : pydict :=
     <[ "ui_config" := ui_config ]>
       (<[ "gui_scale" := VFloat gui_scale ]>
          {[ "window_position" := VPair (VInt x) (VInt y) ]}) in
   do '(sw, sh) <- gets glfw_window_size ;
   if negb ((0 =? sw) || (0 =? sh)) then
     do '(f_width, f_height) <-
       (if rescales_window_size then
          do content_scale <- gets glfw_content_scale ;
          do fw <- lift (py_truediv (PInt sw) content_scale) ;
          do fh <- lift (py_truediv (PInt sh) content_scale) ;
          ret (PFloat fw, PFloat fh)
        else ret (PInt sw, PInt sh)) ;
     do w <- lift (py_int f_width) ;
     do h <- lift (py_int f_height) ;
     ret (<[ "window_size" := VPair (VInt w) (VInt h) ]> sess)
   else ret sess)%py.

Definition start_stop_eye (eye_id : Z) (make_alive : bool) : M unit :=
  (let n : pydict :=
     if make_alive then
       <[ "eye_id" := VInt eye_id ]>
         {[ "subject" :=
              VStr ("eye_process.should_start." ++ format_int eye_id) ]}
     else
       <[ "delay" := VFloat 0.2 ]>
         (<[ "eye_id" := VInt eye_id ]>
            {[ "subject" :=
                 VStr ("eye_process.should_stop." ++ format_int eye_id) ]})
   in
   notify_all n)%py.

(** *** The plugin as a machine

    The entry points through which the host drives the plugin while it
    is alive: the window callbacks, the widget setters and buttons of
    the menu, and the plugin hooks. *)

Inductive op :=
| OnResize (w h : Z)
| OnWindowKey (key scancode action mods : Z)
| OnWindowChar (char : Z)
| OnWindowMouseButton (button action mods : Z)
| OnPos (x y : float)
| OnScroll (x y : float)
| SetScale (new_scale : float)
| SetWindowSize
| ResetRestart
| StartStopEye (eye_id : Z) (make_alive : bool)
| OnNotify (notification : pydict)
| UpdateUi
| GetInitDict.

Definition run_op (o : op) : M unit :=
  match o with
  | OnResize w h => on_resize w h
  | OnWindowKey k s a m => on_window_key k s a m
  | OnWindowChar c => on_window_char c
  | OnWindowMouseButton b a m => on_window_mouse_button b a m
  | OnPos x y => on_pos x y
  | OnScroll x y => on_scroll x y
  | SetScale s => set_scale s
  | SetWindowSize => set_window_size
  | ResetRestart => reset_restart
  | StartStopEye i a => start_stop_eye i a
  | OnNotify n => (on_notify n ;; ret tt)%py
  | UpdateUi => update_ui
  | GetInitDict => (get_init_dict ;; ret tt)%py
  end.

(** The world after an entry point has run (an exception leaves the
    effects made before it). *)
Definition exec (o : op) (w : world) : world := (run_op o w).1.2.

Definition exec_all (os : list op) (w : world) : world :=
  foldl (λ w o, exec o w) w os.

End Service_UI.

(** ** Reading traces *)

Definition trace {A} (r : outcome A * world * list event) : list event := r.2.
Definition final {A} (r : outcome A * world * list event) : world := r.1.2.
Definition result {A} (r : outcome A * world * list event) : outcome A := r.1.1.

Definition is_close_action (e : event) : bool :=
  match e with GlfwSetWindowShouldClose _ => true | _ => false end.

Definition is_notification (e : event) : bool :=
  match e with NotifyAll _ => true | _ => false end.

Definition is_swap (e : event) : bool :=
  match e with GlfwSwapBuffers => true | _ => false end.

(** Calls that draw: the viewport, the texture pass, the buffer swap. *)
Definition is_drawing (e : event) : bool :=
  match e with
  | GlViewport _ _ _ _ | MakeCoordSystemNormBased | DrawGlTexture
  | MakeCoordSystemPixelBased _ _ _ | GlfwSwapBuffers => true
  | _ => false
  end.

(** Calls a resize makes: into the widget system, the window, or a render
    pass. *)
Definition is_resize_effect (e : event) : bool :=
  match e with
  | GuiSetScale _ | GuiUpdateWindow _ _ | GuiCollectMenus => true
  | e => is_drawing e
  end.

Definition count (p : event → bool) (t : list event) : nat :=
  length (filter (λ e, p e = true) t).

(** The clipboard contents handed to the widget system, in order. *)
Definition clipboard_updates (t : list event) : list string :=
  omap (λ e, match e with GuiUpdateClipboard s => Some s | _ => None end) t.

(** Position of the first call a predicate recognises. *)
Fixpoint position (p : event → bool) (t : list event) : option nat :=
  match t with
  | [] => None
  | e :: t' => if p e then Some 0%nat else S <$> position p t'
  end.

(** The notification with a given subject. *)
Definition has_subject (s : string) (e : event) : bool :=
  match e with
  | NotifyAll n =>
      match n !! "subject" with
      | Some v => eq_str v s
      | None => false
      end
  | _ => false
  end.

(** The two logical states of the plugin. *)
Definition close_pending (w : world) : Prop := window_should_close w = true.
Definition running (w : world) : Prop := window_should_close w = false.

(** A computation keeps a property of the world, whether it returns or
    raises. *)
Definition keeps (P : world → Prop) {A} (m : M A) : Prop :=
  ∀ w, P w → P (final (m w)).

Definition is_ok {A} (r : outcome A) : bool :=
  match r with Ok _ => true | Raise _ => false end.

(** One window dimension divided by the content scale, then [int()]. *)
Definition rescale_dim (c : float) (z : Z) : outcome Z :=
  match py_truediv (PInt z) c with
  | Ok q => float_trunc q
  | Raise e => Raise e
  end.

(** The inputs on which [get_init_dict] returns: a window with a zero
    dimension, a platform without rescaling, or a content scale by which
    both dimensions can be divided and converted back to integers. *)
Definition snapshot_defined (H : host) (w : world) : bool :=
  let '(sw, sh) := glfw_window_size w in
  (0 =? sw) || (0 =? sh) || negb (rescales_window_size H)
  || (is_ok (rescale_dim (glfw_content_scale w) sw)
      && is_ok (rescale_dim (glfw_content_scale w) sh)).

(** The entries of the snapshot that are always written. *)
Definition session_base (w : world) : pydict :=
  <[ "ui_config" := gui_configuration w ]>
    (<[ "gui_scale" := VFloat (gui_user_scale w) ]>
       {[ "window_position" :=
            VPair (VInt (glfw_window_pos w).1) (VInt (glfw_window_pos w).2) ]}).

(** ** Sample hosts and worlds *)

(** A host in which nothing happens behind the plugin's back. *)
Definition quiet_host (platform : string) : host :=
  Host platform (λ w, w) (λ w, (w, None)) (λ _ p, p).

Definition sample_world (c f : float) : world :=
  World false (400, 400) (30, 30) c f None 1.0 1.0 VNone (400, 400) c.

Definition heartbeat : pydict :=
  <[ "initial_delay" := VFloat 0.03 ]>
    (<[ "delay" := VFloat 0 ]>
       {[ "subject" := VStr "service_process.ui.should_update" ]}).

(** ** Vocabulary of the further properties *)

(** The clipboard contents written back to the window system, in order. *)
Definition clipboard_writes (t : list event) : list string :=
  omap (λ e, match e with GlfwSetClipboardString b => Some b | _ => None end) t.

(** The notifications of a trace, in order. *)
Definition notifications (t : list event) : list pydict :=
  omap (λ e, match e with NotifyAll n => Some n | _ => None end) t.

(** Every call a computation makes satisfies [Q], from any world. *)
Definition emits (Q : event → Prop) {A} (m : M A) : Prop :=
  ∀ w, Forall Q (trace (m w)).

(** The host leaves a property of the world alone: neither the event poll
    nor the widget update breaks it. *)
Definition host_keeps (P : world → Prop) (H : host) : Prop :=
  (∀ w, P w → P (poll_events H w)) ∧ (∀ w, P w → P (gui_update H w).1).

(** A property of the world that does not depend on what a resize or a
    render pass writes: the clipboard, the stored window size, the stored
    content scale and the scale of the widget system. *)
Definition resize_independent (P : world → Prop) : Prop :=
  ∀ w, P w →
    (∀ c, P (with_clipboard c w)) ∧ (∀ s, P (with_window_size s w))
    ∧ (∀ x, P (with_content_scale x w)) ∧ (∀ x, P (with_gui_scale x w)).

(** The subjects under which the plugin publishes. *)
Definition published_subject (s : string) : Prop :=
  s = "clear_settings_process.should_start"
  ∨ s = "service_process.should_start"
  ∨ s = "service_process.should_stop"
  ∨ s = "service_process.ui.should_update"
  ∨ (∃ id : Z, s = ("eye_process.should_start." ++ format_int id)%string)
  ∨ (∃ id : Z, s = ("eye_process.should_stop." ++ format_int id)%string).

Definition published (e : event) : Prop :=
  match e with
  | NotifyAll n => ∃ s, n !! "subject" = Some (VStr s) ∧ published_subject s
  | _ => True
  end.

(** The subject of the notification [start_stop_eye] emits. *)
Definition eye_subject (id : Z) (make_alive : bool) : string :=
  if make_alive then ("eye_process.should_start." ++ format_int id)%string
  else ("eye_process.should_stop." ++ format_int id)%string.

Definition is_reset_restart (o : op) : bool :=
  match o with ResetRestart => true | _ => false end.

(** A text of the widget system or of the clipboard that is absent or
    well-formed: it can be decoded, and encoded again. *)
Definition text_ok (t : option string) : bool :=
  match t with
  | Some s => utf8_valid s
  | None => true
  end.

(** A computation raises only exceptions that satisfy [Q]. *)
Definition raises_only (Q : exn → Prop) {A} (m : M A) : Prop :=
  ∀ w e, result (m w) = Raise e → Q e.

(** The three bytes that stand for the lone surrogate U+D800. *)
Definition lone_surrogate : string :=
  String (ascii_of_N 237) (String (ascii_of_N 160) (String (ascii_of_N 128) "")).

(** A host whose widget system hands back a text holding a lone
    surrogate. *)
Definition surrogate_host : host :=
  Host "Linux" (λ w, w) (λ w, (w, Some lone_surrogate)) (λ _ p, p).

(** A window one pixel wide on a display with content scale 2. *)
Definition narrow_world : world :=
  World false (1, 300) (30, 30) 2.0 1.0 None 1.0 1.0 VNone (2, 600) 2.0.

(** Text made of ASCII bytes only. *)
Fixpoint all_ascii (s : string) : bool :=
  match s with
  | EmptyString => true
  | String c r => byte_in 0 127 c && all_ascii r
  end.

(** A host whose widget system hands back a copied text on every update. *)
Definition copying_host : host :=
  Host "Linux" (λ w, w) (λ w, (w, Some "copied"%string)) (λ _ p, p).

(** * Properties *)

(** ** Restart with default settings *)

Lemma reset_restart_run (w : world) :
  reset_restart w =
    (Ok tt, with_should_close true w,
     [LoggerWarning "Resetting all settings and restarting Capture.";
      GlfwSetWindowShouldClose true;
      NotifyAll clear_settings_notification;
      NotifyAll restart_notification]).
Proof. reflexivity. Qed.

(** C1, as the claim words it: the two notifications come first and the
    window is marked as closing after them.  On the code the close flag is
    set before either notification is emitted. *)
Lemma reset_restart_close_not_last :
  let t := trace (reset_restart (sample_world 1 1)) in
  ¬ ∃ i j k : nat,
      position (has_subject "clear_settings_process.should_start") t = Some i
      ∧ position (has_subject "service_process.should_start") t = Some j
      ∧ position is_close_action t = Some k
      ∧ (i < j)%nat ∧ (j < k)%nat.
Proof.
  intros t (i & j & k & Hi & Hj & Hk & Hij & Hjk).
  vm_compute in Hi, Hj, Hk.
  injection Hj as <-. injection Hk as <-. lia.
Qed.

(** C1 (amended): [reset_restart] marks the window as closing first, then
    emits the notification [clear_settings_process.should_start], then the
    notification [service_process.should_start] carrying delay 2.0; there
    is exactly one close-window action and there are exactly two
    notifications. *)
Theorem reset_restart_order (w : world) :
  let t := trace (reset_restart w) in
  result (reset_restart w) = Ok tt
  ∧ position is_close_action t = Some 1%nat
  ∧ position (has_subject "clear_settings_process.should_start") t
    = Some 2%nat
  ∧ position (has_subject "service_process.should_start") t = Some 3%nat
  ∧ t !! 3%nat = Some (NotifyAll restart_notification)
  ∧ restart_notification !! "delay" = Some (VFloat 2.0)
  ∧ count is_close_action t = 1%nat
  ∧ count is_notification t = 2%nat
  ∧ window_should_close (final (reset_restart w)) = true.
Proof.
  rewrite reset_restart_run. cbn [trace result final fst snd].
  repeat split; reflexivity.
Qed.

(** ** The user scale *)

Lemma with_gui_user_scale_same (w : world) :
  with_gui_user_scale (gui_user_scale w) w = w.
Proof. by destruct w. Qed.

(** C2: when the scale in effect already equals (Python's [==]) the new
    scale, [set_scale] returns at once: no call is made into the widget
    system, the window system or the renderer, no field of the world other
    than [gui_user_scale] is touched, and the stored scale is the one that
    compared equal; when it is the very same float, the world is
    unchanged. *)
Theorem set_scale_same_is_noop (H : host) (w : world) (s : float) :
  PrimFloat.eqb (gui_user_scale w) s = true →
  set_scale H s w = (Ok tt, with_gui_user_scale s w, [])
  ∧ count is_resize_effect (trace (set_scale H s w)) = 0%nat
  ∧ PrimFloat.eqb (gui_user_scale w)
      (gui_user_scale (final (set_scale H s w))) = true
  ∧ (gui_user_scale w = s → final (set_scale H s w) = w).
Proof.
  intros Heq.
  assert (Hrun : set_scale H s w = (Ok tt, with_gui_user_scale s w, [])).
  { unfold set_scale, bind, gets, modify, ret. cbn.
    change (gui_user_scale w =? s)%float
      with (PrimFloat.eqb (gui_user_scale w) s).
    by rewrite Heq. }
  rewrite Hrun. cbn [trace final fst snd gui_user_scale with_gui_user_scale].
  repeat split; try done.
  intros <-. apply with_gui_user_scale_same.
Qed.

Lemma set_scale_same_is_noop_witness :
  set_scale (quiet_host "Linux") 1.0 (sample_world 1.5 1)
  = (Ok tt, sample_world 1.5 1, []).
Proof.
  destruct (set_scale_same_is_noop (quiet_host "Linux") (sample_world 1.5 1)
              1.0 eq_refl) as (Hrun & _ & _ & Hsame).
  rewrite Hrun. reflexivity.
Defined.

(** ** Eye processes *)


(** ** Running and close-pending *)

Section Keeps.

Context (P : world → Prop).

Lemma keeps_ret {A} (a : A) : keeps P (ret a).
Proof. by intros w. Qed.

Lemma keeps_gets {A} (f : world → A) : keeps P (gets f).
Proof. by intros w. Qed.

Lemma keeps_emit (e : event) : keeps P (emit e).
Proof. by intros w. Qed.

Lemma keeps_lift {A} (r : outcome A) : keeps P (lift r).
Proof. by intros w. Qed.

Lemma keeps_modify (f : world → world) :
  (∀ w, P w → P (f w)) → keeps P (modify f).
Proof. intros Hf w Hw. by apply Hf. Qed.

Lemma keeps_bind {A B} (m : M A) (k : A → M B) :
  keeps P m → (∀ a, keeps P (k a)) → keeps P (bind m k).
Proof.
  intros Hm Hk w Hw. unfold bind, final.
  specialize (Hm w Hw). unfold final in Hm.
  destruct (m w) as [[[a|e] w1] t1]; cbn in *; [|done].
  specialize (Hk a w1 Hm). unfold final in Hk.
  by destruct (k a w1) as [[r w2] t2].
Qed.

End Keeps.

Create HintDb keeps.
#[local] Hint Resolve keeps_ret keeps_gets keeps_emit keeps_lift : keeps.

Ltac keeps_step :=
  lazymatch goal with
  | |- keeps _ (bind _ _) => apply keeps_bind
  | |- keeps _ (modify _) => apply keeps_modify; by intros []
  | |- keeps _ (match ?x with _ => _ end) => destruct x
  | |- ∀ _, _ => intro
  | |- _ => solve [eauto with keeps]
  end.

Lemma update_ui_close_pending (H : host) (w : world) :
  close_pending w →
  update_ui H w = (Ok tt, w, [NotifyAll stop_notification]).
Proof.
  intros Hw. unfold update_ui, bind, glfwWindowShouldClose, gets.
  by rewrite Hw.
Qed.

Lemma update_ui_keeps_close_pending (H : host) :
  keeps close_pending (update_ui H).
Proof. intros w Hw. by rewrite update_ui_close_pending. Qed.

#[local] Hint Resolve update_ui_keeps_close_pending : keeps.

Lemma on_resize_keeps_close_pending (H : host) (wd ht : Z) :
  keeps close_pending (on_resize H wd ht).
Proof. unfold on_resize, gui_set_scale. repeat keeps_step. Qed.

#[local] Hint Resolve on_resize_keeps_close_pending : keeps.

Lemma run_op_keeps_close_pending (H : host) (o : op) :
  keeps close_pending (run_op H o).
Proof.
  destruct o; cbn [run_op];
    unfold on_window_key, on_window_char, on_window_mouse_button, on_pos,
      on_scroll, set_scale, set_window_size, window_size_default,
      reset_restart, glfwSetWindowShouldClose, start_stop_eye, notify_all,
      on_notify, getitem, get_init_dict;
    repeat keeps_step.
Qed.

Lemma exec_all_keeps_close_pending (H : host) (os : list op) (w : world) :
  close_pending w → close_pending (exec_all H os w).
Proof.
  revert w. induction os as [|o os IH]; intros w Hw; [done|].
  cbn [exec_all foldl]. apply IH.
  by apply (run_op_keeps_close_pending H o).
Qed.

(** C3: once the window system reports that the window should close,
    whatever entry points of the plugin are run afterwards (render passes
    included), the window still reports that it should close, and a call
    of [update_ui] emits exactly the notification
    [service_process.should_stop], makes no other call (no viewport, no
    texture pass, no buffer swap) and leaves the world as it was, so that
    the next call does the same. *)
Theorem close_pending_is_final (H : host) (os : list op) (w : world) :
  window_should_close w = true →
  let w' := exec_all H os w in
  window_should_close w' = true
  ∧ update_ui H w' = (Ok tt, w', [NotifyAll stop_notification])
  ∧ stop_notification !! "subject" = Some (VStr "service_process.should_stop")
  ∧ count is_drawing (trace (update_ui H w')) = 0%nat
  ∧ exec_all H (os ++ [UpdateUi]) w = w'.
Proof.
  intros Hw w'.
  assert (Hw' : close_pending w') by by apply exec_all_keeps_close_pending.
  pose proof (update_ui_close_pending H w' Hw') as Hrun.
  repeat split; try done.
  - by rewrite Hrun.
  - unfold exec_all. rewrite foldl_app. cbn [foldl].
    fold (exec_all H os w). fold w'.
    unfold exec. cbn [run_op]. by rewrite Hrun.
Qed.

Lemma close_pending_is_final_witness :
  window_should_close
    (exec_all (quiet_host "Linux") [SetScale 1.2; UpdateUi; OnResize 640 480]
       (exec (quiet_host "Linux") ResetRestart (sample_world 1 1))) = true
  ∧ update_ui (quiet_host "Linux")
      (exec_all (quiet_host "Linux") [SetScale 1.2; UpdateUi; OnResize 640 480]
         (exec (quiet_host "Linux") ResetRestart (sample_world 1 1)))
    = (Ok tt,
       exec_all (quiet_host "Linux") [SetScale 1.2; UpdateUi; OnResize 640 480]
         (exec (quiet_host "Linux") ResetRestart (sample_world 1 1)),
       [NotifyAll stop_notification]).
Proof.
  destruct (close_pending_is_final (quiet_host "Linux")
              [SetScale 1.2; UpdateUi; OnResize 640 480]
              (exec (quiet_host "Linux") ResetRestart (sample_world 1 1))
              eq_refl)
    as (Hflag & Hrun & _).
  split; [exact Hflag|exact Hrun].
Defined.

(** ** Conversions between floats and ints *)

Lemma float_trunc_total (x : float) :
  is_finite x = true → ∃ n, float_trunc x = Ok n.
Proof.
  unfold is_finite, float_trunc.
  destruct (Prim2SF x); intros Hx; try done; eauto.
Qed.

(** [int(x)] is the integer part of [x]: it has the sign of [x] and
    [|int(x)| ≤ |x| < |int(x)| + 1]. *)
Lemma float_trunc_toward_zero (x : float) (n : Z) :
  float_trunc x = Ok n →
  ∃ num den,
    magnitude x = Some (num, den)
    ∧ 0 < den
    ∧ Z.abs n * den ≤ num < (Z.abs n + 1) * den
    ∧ (if sign_bit x then n ≤ 0 else 0 ≤ n).
Proof.
  unfold float_trunc, magnitude, sign_bit.
  destruct (Prim2SF x) as [s|s| |s m e]; intros Hn; try done.
  - injection Hn as <-. exists 0, 1. repeat split; try lia. by destruct s.
  - injection Hn as <-. do 2 eexists. split; [reflexivity|].
    destruct (Z.leb_spec 0 e) as [He|He].
    + rewrite (Z.max_l e 0), (Z.max_r (- e) 0) by lia.
      assert (0 < 2 ^ e) by (apply Z.pow_pos_nonneg; lia).
      change (2 ^ 0) with 1.
      destruct s; repeat split; try lia.
    + rewrite (Z.max_r e 0), (Z.max_l (- e) 0) by lia.
      change (2 ^ 0) with 1. rewrite Z.mul_1_r.
      assert (Hd : 0 < 2 ^ (- e)) by (apply Z.pow_pos_nonneg; lia).
      pose proof (Z.div_pos (Z.pos m) (2 ^ (- e)) ltac:(lia) Hd) as Hq.
      pose proof (Z.mul_div_le (Z.pos m) (2 ^ (- e)) Hd) as Hlo.
      pose proof (Z.mul_succ_div_gt (Z.pos m) (2 ^ (- e)) Hd) as Hhi.
      destruct s; repeat split; try lia.
      all: rewrite ?Z.abs_opp, Z.abs_eq by lia; lia.
Qed.

(** ** Reset window size *)

Lemma to_float_400 : to_float (PInt 400) = Ok 400%float.
Proof. reflexivity. Qed.

Lemma set_window_size_run (w : world) (n : Z) :
  PrimFloat.eqb (glfw_framebuffer_scale w) 0 = false →
  float_trunc
    (PrimFloat.mul 400
       (PrimFloat.div (glfw_content_scale w) (glfw_framebuffer_scale w)))
  = Ok n →
  set_window_size w = (Ok tt, w, [GlfwSetWindowSize n n]).
Proof.
  intros Hf Hn.
  unfold set_window_size, window_size_default, bind, lift, gets, emit.
  unfold py_truediv, py_mul. rewrite to_float_400.
  cbn [to_float py_int]. rewrite Hf, Hn. reflexivity.
Qed.

(** C4, as the claim words it: the window is resized to
    [400 * c/f] rounded to integers.  For [c = 1.046875] and [f = 1] the
    product is exactly 418.75; the window is resized to 418 by 418, not to
    419 by 419. *)
Lemma set_window_size_not_nearest :
  let w := sample_world 1.046875 1 in
  let x := PrimFloat.mul 400
             (PrimFloat.div (glfw_content_scale w) (glfw_framebuffer_scale w)) in
  ¬ ∃ n, nearest_int x = Some n
         ∧ trace (set_window_size w) = [GlfwSetWindowSize n n].
Proof.
  intros w x (n & Hn & Ht). vm_compute in Hn, Ht.
  injection Hn as <-. discriminate Ht.
Qed.

(** C4 (amended): for every content scale [c] and framebuffer scale
    [f ≠ 0] for which [400 * (c / f)] is a finite number, [set_window_size]
    makes exactly one call, resizing the window to [(n, n)] where [n] is
    [400 * (c / f)] truncated toward zero: [n] has the sign of the product
    and [|n| ≤ |400 * (c / f)| < |n| + 1]. *)
Theorem set_window_size_truncates (w : world) :
  let c := glfw_content_scale w in
  let f := glfw_framebuffer_scale w in
  let x := PrimFloat.mul 400 (PrimFloat.div c f) in
  PrimFloat.eqb f 0 = false →
  is_finite x = true →
  ∃ n num den,
    set_window_size w = (Ok tt, w, [GlfwSetWindowSize n n])
    ∧ float_trunc x = Ok n
    ∧ magnitude x = Some (num, den)
    ∧ 0 < den
    ∧ Z.abs n * den ≤ num < (Z.abs n + 1) * den
    ∧ (if sign_bit x then n ≤ 0 else 0 ≤ n).
Proof.
  intros c f x Hf Hx.
  destruct (float_trunc_total x Hx) as [n Hn].
  destruct (float_trunc_toward_zero x n Hn) as (num & den & Hm & Hd & Hb & Hs).
  exists n, num, den. split; [|done].
  by apply set_window_size_run.
Qed.

Lemma set_window_size_truncates_witness :
  set_window_size (sample_world 2 3)
  = (Ok tt, sample_world 2 3, [GlfwSetWindowSize 266 266]).
Proof.
  destruct (set_window_size_truncates (sample_world 2 3) eq_refl eq_refl)
    as (n & num & den & Hrun & Hn & _).
  vm_compute in Hn. injection Hn as <-. exact Hrun.
Defined.

(** ** The render pass *)

(** The render pass of a running plugin, call by call.  The viewport uses
    the size stored before the event poll, the texture pass the size stored
    after it. *)
Lemma update_ui_running_run (H : host) (w : world) :
  running w →
  update_ui H w =
    let w1 := poll_events H w in
    let pre :=
      [GlViewport 0 0 (window_size w).1 (window_size w).2;
       GlfwPollEvents; MakeCoordSystemNormBased; DrawGlTexture;
       MakeCoordSystemPixelBased (window_size w1).2 (window_size w1).1 3] in
    match
      match decode (glfw_clipboard w1) with
      | Raise AttributeError => Ok ""%string
      | r => r
      end
    with
    | Raise e => (Raise e, w1, pre)
    | Ok clipboard =>
        let w2 := (gui_update H w1).1 in
        let uc := (gui_update H w1).2 in
        if truthy uc && negb (bool_decide (uc = Some clipboard)) then
          match encode (default ""%string uc) with
          | Ok b =>
              (Ok tt, with_clipboard (Some b) w2,
               pre ++ [GuiUpdateClipboard clipboard; GuiUpdate;
                       GlfwSetClipboardString b; GlfwSwapBuffers])
          | Raise e =>
              (Raise e, w2, pre ++ [GuiUpdateClipboard clipboard; GuiUpdate])
          end
        else
          (Ok tt, w2,
           pre ++ [GuiUpdateClipboard clipboard; GuiUpdate; GlfwSwapBuffers])
    end.
Proof.
  intros Hw.
  unfold update_ui, bind, glfwWindowShouldClose, glfwPollEvents, gl_display,
    try_except_AttributeError, glfwGetClipboardString, gui_update_call,
    glfwSetClipboardString, bind, gets, modify, emit, lift, ret.
  rewrite Hw. cbn -[encode].
  destruct (window_size w) as [vw vh]. cbn -[encode].
  destruct (window_size (poll_events H w)) as [dw dh]. cbn -[encode].
  destruct (decode (glfw_clipboard (poll_events H w))) as [s|[]]; cbn -[encode];
    try reflexivity.
  all: match goal with |- context [if ?b then _ else _] => destruct b end;
    [|reflexivity].
  all: by destruct (encode _).
Qed.

Lemma update_ui_running_prefix (H : host) (w : world) :
  running w →
  ∃ t,
    trace (update_ui H w)
    = [GlViewport 0 0 (window_size w).1 (window_size w).2;
       GlfwPollEvents; MakeCoordSystemNormBased; DrawGlTexture] ++ t.
Proof.
  intros Hw. rewrite (update_ui_running_run H w Hw). cbn zeta.
  repeat match goal with
         | |- context [match ?x with _ => _ end] => destruct x
         end; cbn [trace snd app]; eexists; reflexivity.
Qed.

Lemma try_except_other {A} (m h : M A) (w w1 : world) (e : exn)
    (t : list event) :
  m w = (Raise e, w1, t) →
  e ≠ AttributeError →
  try_except_AttributeError m h w = (Raise e, w1, t).
Proof.
  intros Hm He. unfold try_except_AttributeError. rewrite Hm.
  by destruct e.
Qed.

(** A clipboard that is not well-formed UTF-8 is not recovered from. *)
Lemma update_ui_undecodable_clipboard (H : host) (w : world) (b : string) :
  running w →
  glfw_clipboard (poll_events H w) = Some b →
  utf8_valid b = false →
  result (update_ui H w) = Raise UnicodeDecodeError
  ∧ clipboard_updates (trace (update_ui H w)) = [].
Proof.
  intros Hw Hb Hv. rewrite (update_ui_running_run H w Hw). cbn zeta.
  rewrite Hb. cbn [decode]. rewrite Hv. by cbn.
Qed.

(** What the clipboard read yields is well-formed text. *)
Lemma decode_or_empty_valid (c : option string) (clip : string) :
  match decode c with
  | Raise AttributeError => Ok ""%string
  | r => r
  end = Ok clip →
  utf8_valid clip = true
  ∧ ((c = None ∧ clip = ""%string) ∨ (c = Some clip ∧ text_ok c = true)).
Proof.
  destruct c as [b|]; cbn [decode text_ok].
  - destruct (utf8_valid b) eqn:Hb; [|done]. intros [= <-]. eauto.
  - intros [= <-]. eauto.
Qed.

(** With a readable clipboard, the pass ends normally unless the text the
    widget system hands back cannot be encoded. *)
Lemma update_ui_readable (H : host) (w : world) (clip : string) :
  running w →
  match decode (glfw_clipboard (poll_events H w)) with
  | Raise AttributeError => Ok ""%string
  | r => r
  end = Ok clip →
  let uc := (gui_update H (poll_events H w)).2 in
  let r := update_ui H w in
  result r = (if text_ok uc then Ok tt else Raise UnicodeEncodeError)
  ∧ clipboard_updates (trace r) = [clip]
  ∧ count is_swap (trace r) = (if text_ok uc then 1 else 0)%nat.
Proof.
  intros Hw Hdec uc r. unfold r.
  rewrite (update_ui_running_run H w Hw). cbn zeta. rewrite Hdec. fold uc.
  apply decode_or_empty_valid in Hdec as [Hclip _].
  destruct uc as [s|]; [|done]. cbn [text_ok].
  change (default ""%string (Some s)) with s.
  destruct (decide (s = clip)) as [->|Hne].
  { rewrite bool_decide_eq_true_2 by done. rewrite andb_false_r.
    by rewrite Hclip. }
  rewrite bool_decide_eq_false_2 by congruence. rewrite andb_true_r.
  unfold encode. destruct (utf8_valid s) eqn:Hs.
  - by destruct (truthy (Some s)).
  - by destruct s as [|a s'].
Qed.

Section RaisesOnly.

Context (Q : exn → Prop).

Lemma raises_only_ret {A} (a : A) : raises_only Q (ret a).
Proof. by intros w e. Qed.

Lemma raises_only_gets {A} (f : world → A) : raises_only Q (gets f).
Proof. by intros w e. Qed.

Lemma raises_only_modify (f : world → world) : raises_only Q (modify f).
Proof. by intros w e. Qed.

Lemma raises_only_emit (e : event) : raises_only Q (emit e).
Proof. by intros w e'. Qed.

Lemma raises_only_lift {A} (r : outcome A) :
  (∀ e, r = Raise e → Q e) → raises_only Q (lift r).
Proof. intros Hr w e He. by apply Hr. Qed.

Lemma raises_only_bind {A B} (m : M A) (k : A → M B) :
  raises_only Q m → (∀ a, raises_only Q (k a)) → raises_only Q (bind m k).
Proof.
  intros Hm Hk w e. specialize (Hm w). unfold bind, result in *.
  destruct (m w) as [[[a|e1] w1] t1]; cbn in *;
    [|intros [= ->]; by apply Hm].
  specialize (Hk a w1 e). unfold result in Hk.
  by destruct (k a w1) as [[r w2] t2].
Qed.

End RaisesOnly.

Create HintDb raises.
#[local] Hint Resolve raises_only_ret raises_only_gets raises_only_modify
  raises_only_emit : raises.

(** The arithmetic of the plugin raises no [AttributeError]. *)
Ltac arith_raises :=
  apply raises_only_lift;
  let e := fresh "e" in
  let He := fresh "He" in
  intros e He; intros ->; revert He;
  unfold py_truediv, py_mul, py_int, to_float, float_trunc; cbv zeta;
  repeat match goal with
         | |- context [match (match ?x with _ => _ end) with _ => _ end] =>
             destruct x
         | |- context [match ?x with _ => _ end] => destruct x
         end; discriminate.

Ltac raises_step :=
  lazymatch goal with
  | |- raises_only _ (bind _ _) => apply raises_only_bind
  | |- raises_only _ (lift _) => arith_raises
  | |- raises_only _ (match ?x with _ => _ end) => destruct x
  | |- ∀ _, _ => intro
  | |- _ => solve [eauto with raises]
  end.

Lemma update_ui_raises_no_attribute_error (H : host) :
  raises_only (λ e, e ≠ AttributeError) (update_ui H).
Proof.
  intros w e. destruct (window_should_close w) eqn:Hw.
  { by rewrite update_ui_close_pending. }
  rewrite (update_ui_running_run H w Hw). cbn zeta.
  destruct (glfw_clipboard (poll_events H w)) as [b|]; cbn [decode];
    [destruct (utf8_valid b); [|cbn; by intros [= <-]]|].
  all: match goal with |- context [if ?c then _ else _] => destruct c end;
    [|done].
  all: unfold encode; destruct (utf8_valid _); cbn; [done|by intros [= <-]].
Qed.

#[local] Hint Resolve update_ui_raises_no_attribute_error : raises.

Lemma on_resize_raises_no_attribute_error (H : host) (wd ht : Z) :
  raises_only (λ e, e ≠ AttributeError) (on_resize H wd ht).
Proof. unfold on_resize, gui_set_scale. repeat raises_step. Qed.

#[local] Hint Resolve on_resize_raises_no_attribute_error : raises.

Lemma run_op_raises_no_attribute_error (H : host) (o : op) :
  raises_only (λ e, e ≠ AttributeError) (run_op H o).
Proof.
  destruct o; cbn [run_op];
    unfold on_window_key, on_window_char, on_window_mouse_button, on_pos,
      on_scroll, set_scale, set_window_size, window_size_default,
      reset_restart, glfwSetWindowShouldClose, start_stop_eye, notify_all,
      on_notify, getitem, get_init_dict;
    repeat raises_step.
  all: apply raises_only_lift; by intros ? [= <-].
Qed.

(** C8: in a render pass of a running plugin, when the clipboard read
    yields nothing ([None]), the failure is recovered from on the spot:
    the empty string is what the widget system receives as the clipboard
    content, once, and the pass goes on; it ends with the buffer swap,
    unless the text the widget system hands back cannot be encoded, which
    is another failure.  An [AttributeError] is never raised by any entry
    point of the plugin, from any world.  The recovery covers nothing
    else: a clipboard whose bytes cannot be decoded makes the same read
    raise [UnicodeDecodeError] out of [update_ui]. *)
Theorem update_ui_absent_clipboard (H : host) (w : world) :
  window_should_close w = false →
  glfw_clipboard (poll_events H w) = None →
  let uc := (gui_update H (poll_events H w)).2 in
  let r := update_ui H w in
  clipboard_updates (trace r) = [""%string]
  ∧ result r = (if text_ok uc then Ok tt else Raise UnicodeEncodeError)
  ∧ count is_swap (trace r) = (if text_ok uc then 1 else 0)%nat
  ∧ (∀ H' o w', result (run_op H' o w') ≠ Raise AttributeError)
  ∧ (∀ w' b,
       window_should_close w' = false →
       glfw_clipboard (poll_events H w') = Some b →
       utf8_valid b = false →
       result (update_ui H w') = Raise UnicodeDecodeError
       ∧ clipboard_updates (trace (update_ui H w')) = []).
Proof.
  intros Hw Hc uc r.
  destruct (update_ui_readable H w "" Hw) as (Hres & Hclip & Hswap).
  { by rewrite Hc. }
  split; [exact Hclip|]. split; [exact Hres|]. split; [exact Hswap|].
  split.
  - intros H' o w' He.
    by apply (run_op_raises_no_attribute_error H' o w' AttributeError).
  - intros w' b Hw' Hb Hv. by apply (update_ui_undecodable_clipboard H w' b).
Qed.

Lemma update_ui_absent_clipboard_witness :
  clipboard_updates
    (trace (update_ui (quiet_host "Linux") (sample_world 1 1))) = [""%string]
  ∧ result (update_ui (quiet_host "Linux") (sample_world 1 1)) = Ok tt.
Proof.
  destruct (update_ui_absent_clipboard (quiet_host "Linux") (sample_world 1 1)
              eq_refl eq_refl) as (Hclip & Hres & _).
  split; [exact Hclip|exact Hres].
Defined.

(** ** Resizing *)

(** C5: for every resize event [(wd, ht)], [on_resize] stores [(wd, ht)]
    as the window size, stores the content scale reported by the window,
    sets the scale of the widget system to the float product
    [gui_user_scale * content_scale], hands the new size to the widget
    system, and then runs one render pass ([update_ui]) on the world so
    updated, inside the same call: that pass sets the viewport to the new
    size when the plugin is running. *)
Theorem on_resize_rescales_and_repaints (H : host) (w : world) (wd ht : Z) :
  let u := gui_user_scale w in
  let c := glfw_content_scale w in
  let w1 := with_gui_scale (PrimFloat.mul u c)
              (with_content_scale c (with_window_size (wd, ht) w)) in
  let r := update_ui H w1 in
  on_resize H wd ht w
  = (result r, final r,
     [GuiSetScale (PrimFloat.mul u c); GuiUpdateWindow wd ht; GuiCollectMenus]
     ++ trace r)
  ∧ window_size w1 = (wd, ht)
  ∧ content_scale w1 = c
  ∧ gui_scale w1 = PrimFloat.mul u c
  ∧ (if window_should_close w
     then trace r = [NotifyAll stop_notification]
     else ∃ t, trace r
               = [GlViewport 0 0 wd ht; GlfwPollEvents;
                  MakeCoordSystemNormBased; DrawGlTexture] ++ t).
Proof.
  intros u c w1 r. repeat split.
  - unfold on_resize, gui_set_scale, bind, gets, modify, emit.
    cbn -[update_ui]. fold u c w1 r. by destruct r as [[o w2] t].
  - destruct (window_should_close w) eqn:Hw.
    + unfold r. by rewrite update_ui_close_pending.
    + apply (update_ui_running_prefix H w1). exact Hw.
Qed.

(** ** The repaint heartbeat *)

(** C7: a notification with subject [service_process.ui.should_update]
    that carries [initial_delay] is emitted again with [delay] set to the
    value of [initial_delay] and every other field as received, and then
    one render pass ([update_ui]) is run; without [initial_delay] the
    lookup raises [KeyError]; a notification with any other subject
    causes no call and no change. *)
Theorem on_notify_heartbeat (H : host) (w : world) (n : pydict) (v : pyval) :
  n !! "subject" = Some v →
  if eq_str v "service_process.ui.should_update" then
    match n !! "initial_delay" with
    | Some d =>
        let n' := <[ "delay" := d ]> n in
        let r := update_ui H w in
        on_notify H n w
        = (match result r with Ok _ => Ok n' | Raise e => Raise e end,
           final r, NotifyAll n' :: trace r)
        ∧ n' !! "delay" = Some d
        ∧ (∀ k, k ≠ "delay" → n' !! k = n !! k)
    | None => on_notify H n w = (Raise (KeyError "initial_delay"), w, [])
    end
  else on_notify H n w = (Ok n, w, []).
Proof.
  intros Hs. unfold on_notify, getitem, bind, lift, ret, notify_all, emit.
  rewrite Hs. cbn -[update_ui].
  destruct (eq_str v "service_process.ui.should_update"); [|done].
  destruct (n !! "initial_delay") as [d|]; [|done]. cbn -[update_ui].
  repeat split.
  - destruct (update_ui H w) as [[[[]|e] w2] t];
      cbn [result final trace fst snd]; by rewrite ?app_nil_r.
  - apply lookup_insert_eq.
  - intros k Hk. by apply lookup_insert_ne.
Qed.

Lemma on_notify_heartbeat_witness :
  let H := quiet_host "Linux" in
  let w := sample_world 1 1 in
  let n' := <[ "delay" := VFloat 0.03 ]> heartbeat in
  let r := update_ui H w in
  on_notify H heartbeat w
  = (match result r with Ok _ => Ok n' | Raise e => Raise e end,
     final r, NotifyAll n' :: trace r)
  ∧ n' !! "delay" = Some (VFloat 0.03)
  ∧ (∀ k, k ≠ "delay" → n' !! k = heartbeat !! k).
Proof.
  exact (on_notify_heartbeat (quiet_host "Linux") (sample_world 1 1) heartbeat
           (VStr "service_process.ui.should_update") eq_refl).
Defined.

(** ** The configuration snapshot *)

Ltac snapshot_cbn := cbn -[py_truediv float_trunc Z.eqb].

Ltac unfold_get_init_dict :=
  unfold get_init_dict, session_base, bind, gets, lift, ret; snapshot_cbn.

Lemma get_init_dict_zero (H : host) (w : world) :
  (glfw_window_size w).1 = 0 ∨ (glfw_window_size w).2 = 0 →
  get_init_dict H w = (Ok (session_base w), w, []).
Proof.
  intros Hz. unfold_get_init_dict.
  destruct (glfw_window_pos w) as [x y], (glfw_window_size w) as [sw sh].
  cbn in Hz.
  destruct Hz as [->| ->]; [|destruct (0 =? sw)]; snapshot_cbn; reflexivity.
Qed.

Lemma get_init_dict_plain (H : host) (w : world) (sw sh : Z) :
  glfw_window_size w = (sw, sh) → sw ≠ 0 → sh ≠ 0 →
  rescales_window_size H = false →
  get_init_dict H w
  = (Ok (<[ "window_size" := VPair (VInt sw) (VInt sh) ]> (session_base w)),
     w, []).
Proof.
  intros Hsz Hw Hh Hp. unfold_get_init_dict.
  destruct (glfw_window_pos w) as [x y]. rewrite Hsz, Hp. snapshot_cbn.
  destruct (Z.eqb_spec 0 sw); [lia|]. destruct (Z.eqb_spec 0 sh); [lia|].
  reflexivity.
Qed.

Lemma get_init_dict_rescaled (H : host) (w : world) (sw sh nw nh : Z) :
  glfw_window_size w = (sw, sh) → sw ≠ 0 → sh ≠ 0 →
  rescales_window_size H = true →
  rescale_dim (glfw_content_scale w) sw = Ok nw →
  rescale_dim (glfw_content_scale w) sh = Ok nh →
  get_init_dict H w
  = (Ok (<[ "window_size" := VPair (VInt nw) (VInt nh) ]> (session_base w)),
     w, []).
Proof.
  intros Hsz Hw Hh Hp Hnw Hnh. unfold_get_init_dict.
  destruct (glfw_window_pos w) as [x y]. rewrite Hsz, Hp.
  snapshot_cbn.
  destruct (Z.eqb_spec 0 sw); [lia|]. destruct (Z.eqb_spec 0 sh); [lia|].
  snapshot_cbn.
  unfold rescale_dim in Hnw, Hnh.
  destruct (py_truediv (PInt sw) (glfw_content_scale w)) as [qw|]; [|done].
  destruct (py_truediv (PInt sh) (glfw_content_scale w)) as [qh|]; [|done].
  cbn -[float_trunc]. rewrite Hnw, Hnh. reflexivity.
Qed.

(** Outside [snapshot_defined] the division or the conversion raises, and
    no snapshot is returned. *)
Lemma get_init_dict_raises (H : host) (w : world) :
  snapshot_defined H w = false →
  ∃ e, get_init_dict H w = (Raise e, w, []).
Proof.
  unfold snapshot_defined, rescale_dim. unfold_get_init_dict.
  destruct (glfw_window_pos w) as [x y], (glfw_window_size w) as [sw sh].
  destruct (0 =? sw), (0 =? sh), (rescales_window_size H); try done.
  snapshot_cbn.
  destruct (py_truediv (PInt sw) (glfw_content_scale w)) as [qw|e1];
    [|intros _; by eexists].
  destruct (py_truediv (PInt sh) (glfw_content_scale w)) as [qh|e2];
    [|intros _; by eexists].
  cbn -[float_trunc].
  destruct (float_trunc qw) as [nw|e1]; [|intros _; by eexists].
  destruct (float_trunc qh) as [nh|e2]; [done|intros _; by eexists].
Qed.

Lemma session_base_lookup (w : world) :
  session_base w !! "window_position"
  = Some (VPair (VInt (glfw_window_pos w).1) (VInt (glfw_window_pos w).2))
  ∧ session_base w !! "gui_scale" = Some (VFloat (gui_user_scale w))
  ∧ session_base w !! "ui_config" = Some (gui_configuration w)
  ∧ session_base w !! "window_size" = None.
Proof. by repeat split. Qed.

Lemma rescales_window_size_platform (H : host) :
  rescales_window_size H = true
  ↔ platform_system H = "Windows" ∨ platform_system H = "Linux".
Proof.
  unfold rescales_window_size. rewrite orb_true_iff.
  by rewrite !String.eqb_eq.
Qed.

Lemma rescale_dim_ok (c : float) (z n : Z) :
  rescale_dim c z = Ok n →
  PrimFloat.eqb c 0 = false
  ∧ float_trunc (PrimFloat.div (float_of_Z z) c) = Ok n.
Proof.
  unfold rescale_dim, py_truediv, to_float. cbn zeta.
  destruct (is_infinite (float_of_Z z)); [done|].
  change (c =? 0)%float with (PrimFloat.eqb c 0).
  by destruct (PrimFloat.eqb c 0).
Qed.

Lemma is_ok_true {A} (r : outcome A) : is_ok r = true → ∃ a, r = Ok a.
Proof. destruct r; [eauto|done]. Qed.

(** X16: whenever [get_init_dict] returns (it raises only when the window
    size has to be divided by a content scale that is zero or leaves no
    finite quotient), the snapshot holds [window_position], [gui_scale]
    (the current [gui_user_scale]) and [ui_config] (the widget
    configuration as it is), and it holds [window_size] exactly when
    neither dimension of the size the window system reports is zero. *)
Theorem get_init_dict_keys (H : host) (w : world) :
  snapshot_defined H w = true →
  ∃ d : pydict,
    get_init_dict H w = (Ok d, w, [])
    ∧ d !! "window_position"
      = Some (VPair (VInt (glfw_window_pos w).1) (VInt (glfw_window_pos w).2))
    ∧ d !! "gui_scale" = Some (VFloat (gui_user_scale w))
    ∧ d !! "ui_config" = Some (gui_configuration w)
    ∧ (is_Some (d !! "window_size")
       ↔ (glfw_window_size w).1 ≠ 0 ∧ (glfw_window_size w).2 ≠ 0).
Proof.
  intros Hdef. unfold snapshot_defined in Hdef.
  destruct (session_base_lookup w) as (Hpos & Hscale & Hcfg & Hnone).
  destruct (glfw_window_size w) as [sw sh] eqn:Hsz.
  assert (Hwith : ∀ nw nh,
    get_init_dict H w
    = (Ok (<[ "window_size" := VPair (VInt nw) (VInt nh) ]> (session_base w)),
       w, []) → sw ≠ 0 → sh ≠ 0 →
    ∃ d : pydict,
      get_init_dict H w = (Ok d, w, [])
      ∧ d !! "window_position"
        = Some (VPair (VInt (glfw_window_pos w).1)
                  (VInt (glfw_window_pos w).2))
      ∧ d !! "gui_scale" = Some (VFloat (gui_user_scale w))
      ∧ d !! "ui_config" = Some (gui_configuration w)
      ∧ (is_Some (d !! "window_size") ↔ (sw, sh).1 ≠ 0 ∧ (sw, sh).2 ≠ 0)).
  { intros nw nh Hrun Hw Hh. eexists. split; [exact Hrun|].
    rewrite !lookup_insert_ne by done. rewrite lookup_insert_eq.
    repeat split; eauto. }
  destruct (Z.eqb_spec 0 sw) as [<-|Hw]; [|destruct (Z.eqb_spec 0 sh) as [<-|Hh]].
  - exists (session_base w).
    rewrite get_init_dict_zero by (rewrite Hsz; by left).
    do 4 (split; [done|]). rewrite Hnone. cbn.
    split; [by intros [? ?] | by intros [? _]].
  - exists (session_base w).
    rewrite get_init_dict_zero by (rewrite Hsz; by right).
    do 4 (split; [done|]). rewrite Hnone. cbn.
    split; [by intros [? ?] | by intros [_ ?]].
  - cbn [orb] in Hdef.
    destruct (rescales_window_size H) eqn:Hp; cbn [negb orb] in Hdef.
    + apply andb_true_iff in Hdef as [Hok1 Hok2].
      apply is_ok_true in Hok1 as [nw Hnw]. apply is_ok_true in Hok2 as [nh Hnh].
      apply (Hwith nw nh); [|lia|lia].
      by apply (get_init_dict_rescaled H w sw sh); try lia.
    + apply (Hwith sw sh); [|lia|lia].
      by apply (get_init_dict_plain H w sw sh); try lia.
Qed.

Lemma get_init_dict_keys_witness :
  ∃ d : pydict,
    get_init_dict (quiet_host "Linux") (sample_world 1.5 1)
    = (Ok d, sample_world 1.5 1, [])
    ∧ is_Some (d !! "window_size").
Proof.
  destruct (get_init_dict_keys (quiet_host "Linux") (sample_world 1.5 1)
              eq_refl) as (d & Hrun & _ & _ & _ & Hsize).
  exists d. split; [exact Hrun|]. apply Hsize. by split.
Defined.

(** C9 (defect of the code): the guard of [get_init_dict] tests the size
    the window system reports, but on Windows and Linux the size that is
    stored is that size divided by the content scale and truncated.  A
    window 1 pixel wide and 300 high at content scale 2.0 passes the guard
    and is persisted with width 0: [window_size] is [(0, 150)]. *)
Theorem get_init_dict_persists_zero_width :
  ∃ d : pydict,
    get_init_dict (quiet_host "Linux") narrow_world = (Ok d, narrow_world, [])
    ∧ glfw_window_size narrow_world = (1, 300)
    ∧ d !! "window_size" = Some (VPair (VInt 0) (VInt 150)).
Proof.
  eexists. split; [|split; [reflexivity|]].
  - by apply (get_init_dict_rescaled (quiet_host "Linux") narrow_world
                1 300 0 150).
  - by rewrite lookup_insert_eq.
Qed.

(** C10: when the window size is not zero in either dimension and
    [get_init_dict] returns, the stored [window_size] depends on the
    platform: on Windows and Linux each dimension is converted to a float,
    divided by the content scale of the window and truncated to an
    integer; on any other platform the two dimensions are stored as they
    are. *)
Theorem get_init_dict_window_size (H : host) (w : world) (sw sh : Z) :
  glfw_window_size w = (sw, sh) → sw ≠ 0 → sh ≠ 0 →
  snapshot_defined H w = true →
  let c := glfw_content_scale w in
  ∃ (d : pydict) (nw nh : Z),
    get_init_dict H w = (Ok d, w, [])
    ∧ d !! "window_size" = Some (VPair (VInt nw) (VInt nh))
    ∧ (if rescales_window_size H then
         PrimFloat.eqb c 0 = false
         ∧ float_trunc (PrimFloat.div (float_of_Z sw) c) = Ok nw
         ∧ float_trunc (PrimFloat.div (float_of_Z sh) c) = Ok nh
       else nw = sw ∧ nh = sh)
    ∧ (rescales_window_size H = true
       ↔ platform_system H = "Windows" ∨ platform_system H = "Linux").
Proof.
  intros Hsz Hw Hh Hdef c. unfold snapshot_defined in Hdef.
  rewrite Hsz in Hdef.
  destruct (Z.eqb_spec 0 sw); [lia|]. destruct (Z.eqb_spec 0 sh); [lia|].
  cbn [orb] in Hdef.
  pose proof (rescales_window_size_platform H) as Hplat.
  destruct (rescales_window_size H) eqn:Hp; cbn [negb orb] in Hdef.
  - apply andb_true_iff in Hdef as [Hok1 Hok2].
    apply is_ok_true in Hok1 as [nw Hnw]. apply is_ok_true in Hok2 as [nh Hnh].
    exists (<[ "window_size" := VPair (VInt nw) (VInt nh) ]> (session_base w)),
      nw, nh.
    rewrite (get_init_dict_rescaled H w sw sh nw nh) by done.
    rewrite lookup_insert_eq.
    apply rescale_dim_ok in Hnw as [Hc Hnw], Hnh as [_ Hnh].
    do 2 (split; [done|]). split; [by repeat split|exact Hplat].
  - exists (<[ "window_size" := VPair (VInt sw) (VInt sh) ]> (session_base w)),
      sw, sh.
    rewrite (get_init_dict_plain H w sw sh) by done.
    rewrite lookup_insert_eq.
    do 2 (split; [done|]). split; [by split|exact Hplat].
Qed.

Lemma get_init_dict_window_size_witness :
  (∃ d : pydict,
     result (get_init_dict (quiet_host "Linux") (sample_world 1.5 1)) = Ok d
     ∧ d !! "window_size" = Some (VPair (VInt 266) (VInt 266))).
Proof.
  destruct (get_init_dict_window_size (quiet_host "Linux") (sample_world 1.5 1)
              400 400 eq_refl ltac:(lia) ltac:(lia) eq_refl)
    as (d & nw & nh & Hrun & Hd & Hplat & _).
  exists d. rewrite Hrun. split; [reflexivity|].
  cbn [rescales_window_size quiet_host platform_system] in Hplat.
  destruct Hplat as (_ & Hnw & Hnh).
  vm_compute in Hnw, Hnh. injection Hnw as <-. injection Hnh as <-.
  exact Hd.
Defined.

(** ** Worked inputs *)

(** [==] on floats is not reflexive at [nan]: there the guard of
    [set_scale] does not fire and the resize is run. *)
Example set_scale_nan_resizes :
  let w := with_gui_user_scale PrimFloat.nan (sample_world 1 1) in
  count is_resize_effect (trace (set_scale (quiet_host "Linux") PrimFloat.nan w))
  = 8%nat.
Proof. reflexivity. Qed.

(** A display scaled to 115%: [400 * 1.15] is just below 460 in binary64. *)
Example set_window_size_115_percent :
  trace (set_window_size (sample_world 1.15 1)) = [GlfwSetWindowSize 459 459].
Proof. reflexivity. Qed.

Example set_window_size_zero_framebuffer_scale :
  set_window_size (sample_world 1 0)
  = (Raise ZeroDivisionError, sample_world 1 0, []).
Proof. reflexivity. Qed.

Example get_init_dict_zero_content_scale :
  result (get_init_dict (quiet_host "Windows") (sample_world 0 1))
  = Raise ZeroDivisionError.
Proof. reflexivity. Qed.

Example get_init_dict_other_platform :
  result (get_init_dict (quiet_host "Darwin") (sample_world 2 2))
  = Ok (<[ "window_size" := VPair (VInt 400) (VInt 400) ]>
          (session_base (sample_world 2 2))).
Proof. reflexivity. Qed.

Example on_resize_effective_scale :
  let w := with_gui_user_scale 1.2 (sample_world 1.5 1) in
  gui_scale (final (on_resize (quiet_host "Linux") 640 480 w))
  = PrimFloat.mul 1.2 1.5.
Proof. reflexivity. Qed.

Example update_ui_bad_clipboard :
  let w := with_clipboard (Some (String (ascii_of_N 255) "")) (sample_world 1 1) in
  result (update_ui (quiet_host "Linux") w) = Raise UnicodeDecodeError.
Proof. reflexivity. Qed.

Example update_ui_lone_surrogate :
  result (update_ui surrogate_host (sample_world 1 1))
  = Raise UnicodeEncodeError
  ∧ count is_swap (trace (update_ui surrogate_host (sample_world 1 1)))
    = 0%nat.
Proof. split; reflexivity. Qed.


(** * Further properties *)

(** ** The render pass, continued *)

Lemma update_ui_raise_inv (H : host) (w : world) (e : exn) :
  result (update_ui H w) = Raise e →
  window_should_close w = false
  ∧ (e = UnicodeDecodeError ∨ e = UnicodeEncodeError).
Proof.
  destruct (window_should_close w) eqn:Hw.
  { by rewrite update_ui_close_pending. }
  rewrite (update_ui_running_run H w Hw). cbn zeta.
  destruct (glfw_clipboard (poll_events H w)) as [b|]; cbn [decode];
    [destruct (utf8_valid b); [|cbn; intros [= <-]; eauto]|].
  all: match goal with |- context [if ?c then _ else _] => destruct c end;
    [|done].
  all: unfold encode; destruct (utf8_valid _); cbn; [done|].
  all: intros [= <-]; eauto.
Qed.

Lemma text_ok_decodes (c : option string) :
  text_ok c = true →
  ∃ clip, match decode c with
          | Raise AttributeError => Ok ""%string
          | r => r
          end = Ok clip.
Proof.
  destruct c as [b|]; cbn [text_ok decode]; [|eauto].
  intros ->. eauto.
Qed.

(** X3: a call of [update_ui] either draws or reports the stop, never
    both: it emits the notification [service_process.should_stop] (and
    no other) exactly when the window should close, and it swaps the
    buffers, once, exactly when the window should not close and the pass
    is not cut short by an exception. *)
Theorem update_ui_draws_or_stops (H : host) (w : world) :
  let r := update_ui H w in
  notifications (trace r)
  = (if window_should_close w then [stop_notification] else [])
  ∧ count is_swap (trace r)
    = (if window_should_close w then 0
       else if is_ok (result r) then 1 else 0)%nat.
Proof.
  intros r. unfold r. destruct (window_should_close w) eqn:Hw.
  { by rewrite update_ui_close_pending. }
  rewrite (update_ui_running_run H w Hw). cbn zeta.
  destruct (decode (glfw_clipboard (poll_events H w))) as [s|[]];
    cbn -[encode]; try done.
  all: match goal with |- context [if ?c then _ else _] => destruct c end;
    [|done].
  all: by destruct (encode _).
Qed.

(** X4: [update_ui] raises in two situations only, both while the
    plugin is running: [UnicodeDecodeError] when the clipboard holds bytes
    that are not well-formed UTF-8, and [UnicodeEncodeError] when the
    clipboard can be read and the text the widget system hands back
    cannot be encoded (it holds a lone surrogate). *)
Theorem update_ui_fails_iff_text_ill_formed (H : host) (w : world) (e : exn) :
  result (update_ui H w) = Raise e
  ↔ window_should_close w = false
    ∧ ((e = UnicodeDecodeError
        ∧ text_ok (glfw_clipboard (poll_events H w)) = false)
       ∨ (e = UnicodeEncodeError
          ∧ text_ok (glfw_clipboard (poll_events H w)) = true
          ∧ text_ok (gui_update H (poll_events H w)).2 = false)).
Proof.
  destruct (window_should_close w) eqn:Hw.
  { rewrite update_ui_close_pending by done. split; [done|by intros [? _]]. }
  destruct (text_ok (glfw_clipboard (poll_events H w))) eqn:Hc.
  - destruct (text_ok_decodes _ Hc) as [clip Hdec].
    destruct (update_ui_readable H w clip Hw Hdec) as (-> & _ & _).
    destruct (text_ok (gui_update H (poll_events H w)).2); split.
    + done.
    + by intros [_ [[_ ?]|(_ & _ & ?)]].
    + intros [= <-]. eauto.
    + by intros [_ [[_ ?]|(-> & _ & _)]].
  - destruct (glfw_clipboard (poll_events H w)) as [b|] eqn:Hb; [|done].
    cbn [text_ok] in Hc.
    destruct (update_ui_undecodable_clipboard H w b Hw Hb Hc) as [-> _].
    split.
    + intros [= <-]. eauto.
    + by intros [_ [[-> _]|(_ & ? & _)]].
Qed.

(** X2: in a render pass the clipboard is written back to the window
    system only if the widget system returned a text that is not empty
    and differs from the text just read; the write is then made once,
    with that text, provided it can be encoded; if it cannot, the pass
    raises [UnicodeEncodeError] with no write and no buffer swap. *)
Theorem update_ui_writes_changed_clipboard (H : host) (w : world)
    (clip : string) :
  window_should_close w = false →
  let w1 := poll_events H w in
  (glfw_clipboard w1 = None ∧ clip = ""%string)
  ∨ (glfw_clipboard w1 = Some clip ∧ utf8_valid clip = true) →
  let r := update_ui H w in
  clipboard_updates (trace r) = [clip]
  ∧ match (gui_update H w1).2 with
    | Some s =>
        if decide (s = ""%string ∨ s = clip)
        then clipboard_writes (trace r) = [] ∧ result r = Ok tt
        else if utf8_valid s
        then clipboard_writes (trace r) = [s] ∧ result r = Ok tt
        else clipboard_writes (trace r) = []
             ∧ result r = Raise UnicodeEncodeError
             ∧ count is_swap (trace r) = 0%nat
    | None => clipboard_writes (trace r) = [] ∧ result r = Ok tt
    end.
Proof.
  intros Hw w1 Hclip r. unfold r.
  rewrite (update_ui_running_run H w Hw). cbn zeta. fold w1.
  assert (Hdec : match decode (glfw_clipboard w1) with
                 | Raise AttributeError => Ok ""%string
                 | r => r
                 end = Ok clip).
  { destruct Hclip as [[-> ->]|[-> Hv]]; cbn [decode]; [done|by rewrite Hv]. }
  rewrite Hdec.
  destruct (gui_update H w1).2 as [s|] eqn:Huc; [|done].
  change (default ""%string (Some s)) with s.
  destruct (decide (s = ""%string ∨ s = clip)) as [[->| ->]|Hne].
  - done.
  - rewrite bool_decide_eq_true_2 by done. by rewrite andb_false_r.
  - destruct s as [|a s']; [exfalso; apply Hne; by left|].
    rewrite bool_decide_eq_false_2 by (intros [= Heq]; apply Hne; by right).
    cbn [truthy andb negb]. unfold encode.
    by destruct (utf8_valid (String a s')).
Qed.

Lemma update_ui_writes_changed_clipboard_witness :
  clipboard_writes (trace (update_ui copying_host (sample_world 1 1)))
  = ["copied"%string].
Proof.
  destruct (update_ui_writes_changed_clipboard copying_host (sample_world 1 1)
              "" eq_refl (or_introl (conj eq_refl eq_refl))) as [_ Hw].
  exact (proj1 Hw).
Defined.

(** ** The repaint heartbeat, continued *)

Lemma on_notify_rearm_trace (H : host) (w : world) (m : pydict) (d : pyval) :
  m !! "subject" = Some (VStr "service_process.ui.should_update") →
  m !! "initial_delay" = Some d →
  trace (on_notify H m w)
  = NotifyAll (<[ "delay" := d ]> m) :: trace (update_ui H w).
Proof.
  intros Hs Hd. unfold on_notify, getitem, bind, lift, ret, notify_all, emit.
  rewrite Hs. cbn -[update_ui]. rewrite Hd. cbn -[update_ui].
  destruct (update_ui H w) as [[[[]|e] w2] t]; cbn; by rewrite ?app_nil_r.
Qed.

(** X5: when [on_notify] raises [KeyError], the missing key is [subject],
    or it is [initial_delay] of a notification with the heartbeat subject;
    in both cases nothing has been emitted or drawn and the world is as it
    was. *)
Theorem on_notify_key_error (H : host) (w : world) (n : pydict) (k : string) :
  result (on_notify H n w) = Raise (KeyError k) →
  on_notify H n w = (Raise (KeyError k), w, [])
  ∧ ((k = "subject"%string ∧ n !! "subject" = None)
     ∨ (k = "initial_delay"%string
        ∧ (∃ v, n !! "subject" = Some v
                ∧ eq_str v "service_process.ui.should_update" = true)
        ∧ n !! "initial_delay" = None)).
Proof.
  unfold on_notify, getitem, bind, lift, ret, notify_all, emit.
  destruct (n !! "subject") as [v|] eqn:Hs; cbn -[update_ui].
  - destruct (eq_str v "service_process.ui.should_update") eqn:Hv; [|done].
    destruct (n !! "initial_delay") as [d|] eqn:Hd; cbn -[update_ui].
    + pose proof (update_ui_raise_inv H w) as Hinv. unfold result in Hinv.
      destruct (update_ui H w) as [[[[]|e] w2] t]; cbn; [done|].
      intros [= ->]. by destruct (Hinv _ eq_refl) as [_ [?|?]].
    + intros [= <-]. split; [done|]. right. eauto.
  - intros [= <-]. split; [done|]. by left.
Qed.

Lemma on_notify_key_error_witness :
  on_notify (quiet_host "Linux") (delete "initial_delay" heartbeat)
    (sample_world 1 1)
  = (Raise (KeyError "initial_delay"), sample_world 1 1, []).
Proof.
  exact (proj1 (on_notify_key_error (quiet_host "Linux") (sample_world 1 1)
                  (delete "initial_delay" heartbeat) "initial_delay" eq_refl)).
Defined.

(** X13: the heartbeat is stable.  The notification that [on_notify]
    re-emits is again a heartbeat carrying [initial_delay], and receiving
    it back, with its [delay] as emitted or with [delay] removed, re-emits
    the very same notification. *)
Theorem on_notify_rearm_is_stable (H : host) (n : pydict) (d : pyval) :
  n !! "subject" = Some (VStr "service_process.ui.should_update") →
  n !! "initial_delay" = Some d →
  let n1 := <[ "delay" := d ]> n in
  n1 !! "subject" = Some (VStr "service_process.ui.should_update")
  ∧ n1 !! "initial_delay" = Some d
  ∧ ∀ m w, m = n ∨ m = n1 ∨ m = delete "delay" n1 →
           trace (on_notify H m w) = NotifyAll n1 :: trace (update_ui H w).
Proof.
  intros Hs Hd n1.
  assert (Hs1 : n1 !! "subject"
                = Some (VStr "service_process.ui.should_update")).
  { unfold n1. by rewrite lookup_insert_ne. }
  assert (Hd1 : n1 !! "initial_delay" = Some d).
  { unfold n1. by rewrite lookup_insert_ne. }
  repeat split; try done.
  intros m w [->|[->| ->]].
  - by apply on_notify_rearm_trace.
  - rewrite (on_notify_rearm_trace H w n1 d) by done.
    unfold n1. by rewrite insert_insert_eq.
  - rewrite (on_notify_rearm_trace H w (delete "delay" n1) d)
      by (by rewrite lookup_delete_ne).
    rewrite insert_delete_eq. unfold n1. by rewrite insert_insert_eq.
Qed.

Lemma on_notify_rearm_is_stable_witness :
  let H := quiet_host "Linux" in
  let n1 := <[ "delay" := VFloat 0.03 ]> heartbeat in
  trace (on_notify H (delete "delay" n1) (sample_world 1 1))
  = NotifyAll n1 :: trace (update_ui H (sample_world 1 1)).
Proof.
  intros H n1.
  destruct (on_notify_rearm_is_stable H heartbeat (VFloat 0.03) eq_refl eq_refl)
    as (_ & _ & Hm).
  apply Hm. by right; right.
Defined.

(** ** What a resize and a render pass leave alone *)

Lemma on_resize_run (H : host) (w : world) (wd ht : Z) :
  let w1 := with_gui_scale
              (PrimFloat.mul (gui_user_scale w) (glfw_content_scale w))
              (with_content_scale (glfw_content_scale w)
                 (with_window_size (wd, ht) w)) in
  on_resize H wd ht w
  = (result (update_ui H w1), final (update_ui H w1),
     [GuiSetScale (PrimFloat.mul (gui_user_scale w) (glfw_content_scale w));
      GuiUpdateWindow wd ht; GuiCollectMenus] ++ trace (update_ui H w1)).
Proof.
  intros w1. unfold on_resize, gui_set_scale, bind, gets, modify, emit.
  cbn -[update_ui]. fold w1. by destruct (update_ui H w1) as [[o w2] t].
Qed.

Lemma update_ui_keeps (P : world → Prop) (H : host) :
  host_keeps P H → resize_independent P → keeps P (update_ui H).
Proof.
  intros [Hpoll Hgui] Hind w Hw.
  destruct (window_should_close w) eqn:Hc.
  { by rewrite update_ui_close_pending. }
  rewrite (update_ui_running_run H w Hc). cbn zeta.
  pose proof (Hpoll w Hw) as H1. pose proof (Hgui _ H1) as H2.
  destruct (decode (glfw_clipboard (poll_events H w))) as [s|[]];
    cbn -[encode]; try done.
  all: match goal with |- context [if ?c then _ else _] => destruct c end;
    [|done].
  all: destruct (encode _); cbn; [by apply Hind|done].
Qed.

Lemma on_resize_keeps (P : world → Prop) (H : host) (wd ht : Z) :
  host_keeps P H → resize_independent P → keeps P (on_resize H wd ht).
Proof.
  intros HH Hind w Hw. rewrite on_resize_run. cbn [final fst snd].
  apply (update_ui_keeps P H HH Hind).
  apply Hind, Hind, Hind, Hw.
Qed.

Lemma running_resize_independent : resize_independent running.
Proof. by intros []. Qed.

Lemma user_scale_resize_independent (s : float) :
  resize_independent (λ w, gui_user_scale w = s).
Proof. by intros []. Qed.

#[local] Hint Resolve update_ui_keeps on_resize_keeps
  running_resize_independent : keeps.

Lemma run_op_keeps_running (H : host) (o : op) :
  host_keeps running H → is_reset_restart o = false →
  keeps running (run_op H o).
Proof.
  intros HH Ho. destruct o; try done; cbn [run_op];
    unfold on_window_key, on_window_char, on_window_mouse_button, on_pos,
      on_scroll, set_scale, set_window_size, window_size_default,
      start_stop_eye, notify_all, on_notify, getitem, get_init_dict;
    repeat keeps_step.
Qed.

(** X10: the plugin asks for the window to close through [reset_restart]
    and nowhere else: with a host that does not close the window behind
    its back, a running plugin is still running after any sequence of
    entry points that does not contain [reset_restart]. *)
Theorem only_reset_restart_closes (H : host) (os : list op) (w : world) :
  host_keeps running H →
  window_should_close w = false →
  Forall (λ o, is_reset_restart o = false) os →
  window_should_close (exec_all H os w) = false.
Proof.
  intros HH Hw Hos. revert w Hw.
  induction Hos as [|o os Ho _ IH]; intros w Hw; [done|].
  cbn [exec_all foldl]. apply IH.
  by apply (run_op_keeps_running H o HH Ho).
Qed.

Lemma only_reset_restart_closes_witness :
  window_should_close
    (exec_all (quiet_host "Linux")
       [SetScale 1.4; OnResize 800 600; UpdateUi; SetWindowSize; GetInitDict;
        StartStopEye 1 false; OnNotify heartbeat]
       (sample_world 1 1)) = false.
Proof.
  apply only_reset_restart_closes.
  - by split.
  - reflexivity.
  - repeat constructor.
Defined.

(** X9: after [reset_restart], whatever entry points run next, a render
    pass draws nothing and emits [service_process.should_stop]. *)
Theorem reset_restart_then_stops (H : host) (os : list op) (w : world) :
  let w' := exec_all H (ResetRestart :: os) w in
  update_ui H w' = (Ok tt, w', [NotifyAll stop_notification]).
Proof.
  intros w'. apply update_ui_close_pending.
  unfold w'. cbn [exec_all foldl].
  by apply exec_all_keeps_close_pending.
Qed.

(** ** The user scale, continued *)

(** X1: when the new scale differs from the one in effect, [set_scale]
    stores it and then does what a resize event at the stored window size
    does: the widget system receives the new scale times the content
    scale, then the unchanged size, then a render pass follows. *)
Theorem set_scale_changed_resizes (H : host) (w : world) (s : float) :
  PrimFloat.eqb (gui_user_scale w) s = false →
  set_scale H s w
  = on_resize H (window_size w).1 (window_size w).2 (with_gui_user_scale s w)
  ∧ ∃ t, trace (set_scale H s w)
         = [GuiSetScale (PrimFloat.mul s (glfw_content_scale w));
            GuiUpdateWindow (window_size w).1 (window_size w).2;
            GuiCollectMenus] ++ t.
Proof.
  intros Hne.
  assert (Hrun : set_scale H s w
                 = on_resize H (window_size w).1 (window_size w).2
                     (with_gui_user_scale s w)).
  { unfold set_scale, bind, gets, modify. cbn -[on_resize].
    change (gui_user_scale w =? s)%float
      with (PrimFloat.eqb (gui_user_scale w) s).
    rewrite Hne. cbn -[on_resize].
    destruct (window_size w) as [a b]. cbn -[on_resize].
    by destruct (on_resize H a b (with_gui_user_scale s w)) as [[o w2] t]. }
  split; [exact Hrun|]. rewrite Hrun, on_resize_run.
  eexists. reflexivity.
Qed.

Lemma set_scale_changed_resizes_witness :
  ∃ t, trace (set_scale (quiet_host "Linux") 1.2 (sample_world 1.5 1))
       = [GuiSetScale (PrimFloat.mul 1.2 1.5); GuiUpdateWindow 400 400;
          GuiCollectMenus] ++ t.
Proof.
  exact (proj2 (set_scale_changed_resizes (quiet_host "Linux")
                  (sample_world 1.5 1) 1.2 eq_refl)).
Defined.

(** ** Reset window size, continued *)


(** ** The configuration snapshot, continued *)

Lemma get_init_dict_returns (H : host) (w : world) :
  snapshot_defined H w = true →
  ∃ d : pydict,
    get_init_dict H w = (Ok d, w, [])
    ∧ d !! "gui_scale" = Some (VFloat (gui_user_scale w)).
Proof.
  intros Hdef. unfold snapshot_defined in Hdef.
  destruct (glfw_window_size w) as [sw sh] eqn:Hsz.
  destruct (Z.eqb_spec 0 sw) as [<-|Hw];
    [|destruct (Z.eqb_spec 0 sh) as [<-|Hh]].
  - eexists. by rewrite get_init_dict_zero by (rewrite Hsz; by left).
  - eexists. by rewrite get_init_dict_zero by (rewrite Hsz; by right).
  - cbn [orb] in Hdef.
    destruct (rescales_window_size H) eqn:Hp; cbn [negb orb] in Hdef.
    + apply andb_true_iff in Hdef as [Hok1 Hok2].
      apply is_ok_true in Hok1 as [nw Hnw].
      apply is_ok_true in Hok2 as [nh Hnh].
      eexists. rewrite (get_init_dict_rescaled H w sw sh nw nh) by (done || lia).
      split; [done|]. by rewrite lookup_insert_ne.
    + eexists. rewrite (get_init_dict_plain H w sw sh) by (done || lia).
      split; [done|]. by rewrite lookup_insert_ne.
Qed.

(** X6: [get_init_dict] only reads.  Whether it returns a snapshot or
    raises, it makes no call and leaves the world as it was; it returns
    exactly on the inputs described by [snapshot_defined]. *)
Theorem get_init_dict_read_only (H : host) (w : world) :
  final (get_init_dict H w) = w
  ∧ trace (get_init_dict H w) = []
  ∧ is_ok (result (get_init_dict H w)) = snapshot_defined H w.
Proof.
  destruct (snapshot_defined H w) eqn:Hdef.
  - destruct (get_init_dict_returns H w Hdef) as (d & -> & _). by cbn.
  - destruct (get_init_dict_raises H w Hdef) as (e & ->). by cbn.
Qed.

(** X7: on Windows and Linux a window with non-zero dimensions and a
    content scale of zero makes [get_init_dict] raise [ZeroDivisionError]
    instead of returning a snapshot; on any other platform the same world
    yields a snapshot holding the window size as it is. *)
Theorem get_init_dict_zero_scale (H : host) (w : world) (sw sh : Z) :
  glfw_window_size w = (sw, sh) → sw ≠ 0 → sh ≠ 0 →
  PrimFloat.eqb (glfw_content_scale w) 0 = true →
  is_infinite (float_of_Z sw) = false →
  if rescales_window_size H
  then get_init_dict H w = (Raise ZeroDivisionError, w, [])
  else ∃ d : pydict,
         get_init_dict H w = (Ok d, w, [])
         ∧ d !! "window_size" = Some (VPair (VInt sw) (VInt sh)).
Proof.
  intros Hsz Hw Hh Hc Hfin.
  destruct (rescales_window_size H) eqn:Hp.
  - unfold_get_init_dict.
    destruct (glfw_window_pos w) as [x y]. rewrite Hsz, Hp. snapshot_cbn.
    destruct (Z.eqb_spec 0 sw); [lia|]. destruct (Z.eqb_spec 0 sh); [lia|].
    snapshot_cbn. unfold py_truediv, to_float. cbn zeta. rewrite Hfin.
    change (glfw_content_scale w =? 0)%float
      with (PrimFloat.eqb (glfw_content_scale w) 0).
    by rewrite Hc.
  - eexists. rewrite (get_init_dict_plain H w sw sh) by done.
    split; [done|]. by rewrite lookup_insert_eq.
Qed.

Lemma get_init_dict_zero_scale_witness :
  get_init_dict (quiet_host "Windows") (sample_world 0 1)
  = (Raise ZeroDivisionError, sample_world 0 1, []).
Proof.
  exact (get_init_dict_zero_scale (quiet_host "Windows") (sample_world 0 1)
           400 400 eq_refl ltac:(lia) ltac:(lia) eq_refl eq_refl).
Defined.

(** X14: the scale given to [set_scale] is the scale a following
    [get_init_dict] reports as [gui_scale], provided the host does not
    change the user scale behind the plugin's back. *)
Theorem set_scale_then_snapshot (H : host) (w : world) (s : float) :
  host_keeps (λ w, gui_user_scale w = s) H →
  let w' := final (set_scale H s w) in
  snapshot_defined H w' = true →
  gui_user_scale w' = s
  ∧ ∃ d : pydict,
      get_init_dict H w' = (Ok d, w', [])
      ∧ d !! "gui_scale" = Some (VFloat s).
Proof.
  intros HH w' Hdef.
  assert (Hs : gui_user_scale w' = s).
  { unfold w', set_scale, bind, gets, modify. cbn -[on_resize].
    destruct (gui_user_scale w =? s)%float; cbn -[on_resize]; [done|].
    destruct (window_size w) as [a b]. cbn -[on_resize].
    pose proof (on_resize_keeps _ H a b HH (user_scale_resize_independent s)
                  (with_gui_user_scale s w) eq_refl) as Hk.
    unfold final in Hk.
    by destruct (on_resize H a b (with_gui_user_scale s w)) as [[o w2] t]. }
  split; [exact Hs|].
  destruct (get_init_dict_returns H w' Hdef) as (d & Hrun & Hd).
  exists d. split; [exact Hrun|]. by rewrite Hd, Hs.
Qed.

Lemma set_scale_then_snapshot_witness :
  ∃ d : pydict,
    result (get_init_dict (quiet_host "Linux")
              (final (set_scale (quiet_host "Linux") 1.2 (sample_world 1.5 1))))
    = Ok d
    ∧ d !! "gui_scale" = Some (VFloat 1.2).
Proof.
  destruct (set_scale_then_snapshot (quiet_host "Linux") (sample_world 1.5 1)
              1.2 (conj (λ _ h, h) (λ _ h, h)) eq_refl)
    as (_ & d & Hrun & Hd).
  exists d. by rewrite Hrun.
Defined.

(** ** What the plugin publishes *)

Section Emits.

Context (Q : event → Prop).

Lemma emits_ret {A} (a : A) : emits Q (ret a).
Proof. intros w. constructor. Qed.

Lemma emits_gets {A} (f : world → A) : emits Q (gets f).
Proof. intros w. constructor. Qed.

Lemma emits_modify (f : world → world) : emits Q (modify f).
Proof. intros w. constructor. Qed.

Lemma emits_lift {A} (r : outcome A) : emits Q (lift r).
Proof. intros w. constructor. Qed.

Lemma emits_emit (e : event) : Q e → emits Q (emit e).
Proof. intros He w. by repeat constructor. Qed.

Lemma emits_bind {A B} (m : M A) (k : A → M B) :
  emits Q m → (∀ a, emits Q (k a)) → emits Q (bind m k).
Proof.
  intros Hm Hk w. specialize (Hm w). unfold bind, trace in *.
  destruct (m w) as [[[a|e] w1] t1]; cbn in *; [|done].
  specialize (Hk a w1). unfold trace in Hk.
  destruct (k a w1) as [[r w2] t2]. cbn in *. by apply Forall_app.
Qed.

End Emits.

Create HintDb emits.
#[local] Hint Resolve emits_ret emits_gets emits_modify emits_lift : emits.

Ltac emits_step :=
  lazymatch goal with
  | |- emits _ (bind _ _) => apply emits_bind
  | |- emits _ (emit _) => apply emits_emit; exact I
  | |- emits _ (match ?x with _ => _ end) => destruct x
  | |- ∀ _, _ => intro
  | |- _ => solve [eauto with emits]
  end.

Lemma stop_notification_published : published (NotifyAll stop_notification).
Proof.
  eexists. split; [reflexivity|]. unfold published_subject. tauto.
Qed.

Lemma update_ui_emits_published (H : host) : emits published (update_ui H).
Proof.
  intros w. destruct (window_should_close w) eqn:Hc.
  { rewrite update_ui_close_pending by done.
    repeat constructor. apply stop_notification_published. }
  rewrite (update_ui_running_run H w Hc). cbn zeta.
  destruct (decode (glfw_clipboard (poll_events H w))) as [s|[]];
    cbn -[encode]; try (by repeat constructor).
  all: match goal with |- context [if ?c then _ else _] => destruct c end;
    [|by repeat constructor].
  all: destruct (encode _); by repeat constructor.
Qed.

Lemma on_resize_emits_published (H : host) (wd ht : Z) :
  emits published (on_resize H wd ht).
Proof.
  intros w. rewrite on_resize_run. cbn [trace snd].
  apply Forall_app. split; [by repeat constructor|].
  apply update_ui_emits_published.
Qed.

#[local] Hint Resolve update_ui_emits_published on_resize_emits_published
  : emits.

Lemma on_notify_emits_published (H : host) (n : pydict) :
  emits published (on_notify H n).
Proof.
  intros w. unfold on_notify, getitem, bind, lift, ret, notify_all, emit.
  destruct (n !! "subject") as [v|] eqn:Hs; cbn -[update_ui];
    [|constructor].
  destruct (eq_str v "service_process.ui.should_update") eqn:Hv;
    [|constructor].
  destruct (n !! "initial_delay") as [d|]; cbn -[update_ui]; [|constructor].
  pose proof (update_ui_emits_published H w) as Hu. unfold trace in Hu.
  destruct (update_ui H w) as [[[[]|e] w2] t]; cbn in *;
    rewrite ?app_nil_r; constructor; try done.
  all: destruct v as [| | | |s|]; try done; cbn in Hv;
    apply String.eqb_eq in Hv as ->;
    exists "service_process.ui.should_update"%string;
    (split; [by rewrite lookup_insert_ne|]); unfold published_subject; tauto.
Qed.

(** X11: every notification the plugin emits, through any of its entry
    points and from any world, has a string [subject], and that subject
    is one of the six the plugin publishes: the settings wipe, the service
    start, the service stop, the heartbeat, or the start or the stop of an
    eye process. *)
Theorem notifications_are_published (H : host) (o : op) (w : world) :
  Forall published (trace (run_op H o w)).
Proof.
  revert w. change (emits published (run_op H o)).
  destruct o; cbn [run_op];
    try (unfold on_window_key, on_window_char, on_window_mouse_button, on_pos,
           on_scroll, set_scale, set_window_size, window_size_default,
           get_init_dict;
         by repeat emits_step).
  - intros w. rewrite reset_restart_run. repeat constructor.
    + eexists. split; [reflexivity|]. unfold published_subject. tauto.
    + eexists. split; [reflexivity|]. unfold published_subject. tauto.
  - intros w. destruct make_alive; repeat constructor.
    + eexists. split; [reflexivity|]. unfold published_subject. eauto 10.
    + eexists. split; [reflexivity|]. unfold published_subject. eauto 10.
  - apply emits_bind; [apply on_notify_emits_published|]. by repeat emits_step.
Qed.

(** ** Eye processes, continued *)

Lemma format_int_inj (n m : Z) : format_int n = format_int m → n = m.
Proof.
  unfold format_int. intros Heq. apply DecimalZ.to_int_inj.
  assert (Hisi : ∀ z, NilZero.int_of_string (NilZero.string_of_int (Z.to_int z))
                      = Some (Z.to_int z)).
  { intros z. apply NilZero.isi; destruct z; cbn; try discriminate.
    - intros [= E]. by apply (DecimalPos.Unsigned.to_uint_nonnil p).
    - intros [= E]. by apply (DecimalPos.Unsigned.to_uint_nonnil p). }
  pose proof (Hisi n) as Hn. rewrite Heq, Hisi in Hn. congruence.
Qed.

(** X12: the subject of the notification [start_stop_eye] emits tells the
    eye and the direction apart: two calls emit the same subject only for
    the same eye id and the same choice of start or stop. *)
Theorem eye_subject_determines_request (N M : Z) (a b : bool) (w : world) :
  (∃ n : pydict,
     start_stop_eye N a w = (Ok tt, w, [NotifyAll n])
     ∧ n !! "subject" = Some (VStr (eye_subject N a)))
  ∧ (eye_subject N a = eye_subject M b → N = M ∧ a = b).
Proof.
  split.
  - destruct a; eexists; (split; [reflexivity|]); reflexivity.
  - unfold eye_subject. destruct a, b; cbn; intros Heq; simplify_eq.
    + split; [|done]. by apply format_int_inj.
    + split; [|done]. by apply format_int_inj.
Qed.


(** ** The clipboard read *)

Lemma utf8_valid_ascii (s : string) : all_ascii s = true → utf8_valid s = true.
Proof.
  induction s as [|c r IH]; [done|].
  cbn [all_ascii utf8_valid]. intros [Hc Hr]%andb_true_iff.
  rewrite Hc. by apply IH.
Qed.

(** X15: a clipboard holding plain ASCII text is always read: the text
    is decoded as it is and handed to the widget system, once, and the
    read raises nothing; [update_ui] then returns normally unless the
    text the widget system hands back cannot be encoded. *)
Theorem update_ui_ascii_clipboard (H : host) (w : world) (b : string) :
  window_should_close w = false →
  glfw_clipboard (poll_events H w) = Some b →
  all_ascii b = true →
  let uc := (gui_update H (poll_events H w)).2 in
  clipboard_updates (trace (update_ui H w)) = [b]
  ∧ result (update_ui H w)
    = (if text_ok uc then Ok tt else Raise UnicodeEncodeError)
  ∧ result (update_ui H w) ≠ Raise UnicodeDecodeError.
Proof.
  intros Hw Hb Ha uc.
  destruct (update_ui_readable H w b Hw) as (Hres & Hclip & _).
  { rewrite Hb. cbn [decode]. by rewrite (utf8_valid_ascii b Ha). }
  fold uc in Hres. split; [exact Hclip|]. split; [exact Hres|].
  rewrite Hres. by destruct (text_ok uc).
Qed.

Lemma update_ui_ascii_clipboard_witness :
  clipboard_updates
    (trace (update_ui (quiet_host "Linux")
              (with_clipboard (Some "pupil"%string) (sample_world 1 1))))
  = ["pupil"%string].
Proof.
  exact (proj1 (update_ui_ascii_clipboard (quiet_host "Linux")
                  (with_clipboard (Some "pupil"%string) (sample_world 1 1))
                  "pupil" eq_refl eq_refl eq_refl)).
Defined.

Lemma eye_subject_determines_request_witness :
  (1 = 1 ∧ false = false)
  ∧ eye_subject 1 false = "eye_process.should_stop.1"%string.
Proof.
  split; [|reflexivity].
  exact (proj2 (eye_subject_determines_request 1 1 false false
                  (sample_world 1 1)) eq_refl).
Defined.
